(** * warmup_tool: the powerlifting warm-up questionnaire

    A shallow embedding of [src/warmup_tool/main.py] and the properties its
    specification states about it.

    Modelling conventions.
    - Text is a [string] of UTF-8 bytes; [str.lower] is modelled on the
      ASCII letters and on the Kelvin sign, the characters it can turn into
      the letters of [y], [n] and [skip].
    - A cell of the data frame is either text or pandas' missing value NaN.
      The catalog's columns are the eight required ones and hold text.
    - The data frame has the default [RangeIndex], so the label that
      [iterrows] yields for a row is its position, the argument of [iloc].
    - Console effects are explicit: a computation reads lines from a finite
      standard input and emits a trace of [print] and [input] prompt events;
      it either returns a value or raises a Python exception. *)

From Stdlib Require Import Ascii String.
From stdpp Require Import base decidable option list sorting gmap strings pretty.

Open Scope string_scope.
Open Scope list_scope.
Open Scope nat_scope.

(** ** Text helpers *)

Definition nl : string := String (ascii_of_nat 10) EmptyString.

(** [c.lower()] on one character. *)
Definition lower_ascii (c : ascii) : ascii :=
  let n := nat_of_ascii c in
  if bool_decide (65 ≤ n ≤ 90) then ascii_of_nat (n + 32) else c.

(** The UTF-8 bytes of U+212A, the Kelvin sign. *)
Definition kelvin_sign : string :=
  String (ascii_of_nat 226) (String (ascii_of_nat 132) (String (ascii_of_nat 170) EmptyString)).

(** [s.lower()] on text held as its UTF-8 bytes. [str.lower] turns the
    ASCII capital letters into small ones and the Kelvin sign into [k]; the
    Kelvin sign is the one character outside ASCII that it turns into ASCII
    text. The other characters outside ASCII are kept as they are: what
    [str.lower] makes of them holds a character outside ASCII as well, and
    the program only compares the result with [y], [n] and [skip]. *)
Fixpoint lower (s : string) : string :=
  match s with
  | EmptyString => EmptyString
  | String c s' =>
      match s' with
      | String c1 (String c2 s'') =>
          if bool_decide (c = ascii_of_nat 226 ∧ c1 = ascii_of_nat 132
                          ∧ c2 = ascii_of_nat 170)
          then String (ascii_of_nat 107) (lower s'')
          else String (lower_ascii c) (lower s')
      | _ => String (lower_ascii c) (lower s')
      end
  end.

(** [sep.join(l)] *)
Fixpoint join (sep : string) (l : list string) : string :=
  match l with
  | [] => EmptyString
  | [x] => x
  | x :: l' => x +:+ sep +:+ join sep l'
  end.

(** ** Data model *)

(** One value of the data frame: text, or NaN for an empty CSV field. *)
Inductive cell : Type :=
  | Text (s : string)
  | NaN.

Global Instance cell_eq_dec : EqDecision cell.
Proof. solve_decision. Defined.

(** [pd.notna(c)] *)
Definition notna (c : cell) : bool :=
  match c with Text _ => true | NaN => false end.

(** [f"{c}"]: a float NaN formats as [nan]. *)
Definition fmt (c : cell) : string :=
  match c with Text s => s | NaN => "nan" end.

(** [c in xs] for a list of strings: NaN equals no string. *)
Definition cell_in_list (c : cell) (xs : list string) : bool :=
  match c with Text s => bool_decide (s ∈ xs) | NaN => false end.

(** [c in xs] for a set of strings. *)
Definition cell_in_set (c : cell) (xs : gset string) : bool :=
  match c with Text s => bool_decide (s ∈ xs) | NaN => false end.

(** One row of the assessment CSV. *)
Record TestRow : Type := {
  Area : cell;
  Test : cell;
  Test_Description : cell;
  Fail_Criteria : cell;
  Solution_1 : cell;
  Solution_2 : cell;
  Solution_3 : cell;
  Solution_4 : cell
}.

(** The loaded table, in file order. *)
Abbreviation DataFrame := (list TestRow).

(** ** The fixed tables *)

Definition LIFT_SPECIFIC_TESTS : gmap string (list string) :=
  <["squat" := [
      "Ankle Mobility";
      "Hip Flexion";
      "Hip Internal Rotation";
      "Hip External Rotation";
      "Thoracic Extension";
      "Shoulder Internal Rotation";
      "Lat Flexibility";
      "Bracing Ability";
      "Anterior Core Control";
      "Hip Hinge Pattern";
      "Squat Pattern" ]]>
  (<["bench" := [
      "Shoulder External Rotation";
      "Shoulder Internal Rotation";
      "Thoracic Extension";
      "Lat Flexibility";
      "Wrist Mobility";
      "Bracing Ability";
      "Bench Setup" ]]>
  (<["deadlift" := [
      "Hip Flexion";
      "Hamstring Flexibility";
      "Lat Flexibility";
      "Wrist Mobility";
      "Bracing Ability";
      "Anterior Core Control";
      "Hip Hinge Pattern";
      "Deadlift Setup" ]]> ∅)).

Definition FUNDAMENTAL_TESTS : list string := [
  "General Pain Assessment";
  "Muscle Soreness";
  "CNS Fatigue" ].

(** ** Console effects *)

Inductive exn : Type :=
  | EOFError
  | KeyError (k : string)
  | IndexError.

Inductive event : Type :=
  | Print (s : string)     (* [print(s)] *)
  | Prompt (s : string).   (* the prompt written by [input(s)] *)

Inductive outcome (A : Type) : Type :=
  | Return (a : A)
  | Raise (e : exn).
Arguments Return {A} a.
Arguments Raise {A} e.

(** What a computation leaves behind: the trace it wrote, how it ended, and
    the lines of standard input it did not read. *)
Record result (A : Type) : Type := Result {
  out : list event;
  res : outcome A;
  rest : list string
}.
Arguments Result {A} out res rest.
Arguments out {A} r.
Arguments res {A} r.
Arguments rest {A} r.

Definition io (A : Type) : Type := list string → result A.

Definition io_ret {A} (a : A) : io A := λ i, Result [] (Return a) i.

Definition io_bind {A B} (f : A → io B) (m : io A) : io B := λ i,
  let r := m i in
  match res r with
  | Raise e => Result (out r) (Raise e) (rest r)
  | Return a =>
      let r' := f a (rest r) in
      Result (out r ++ out r') (res r') (rest r')
  end.

Global Instance io_mret : MRet io := @io_ret.
Global Instance io_mbind : MBind io := @io_bind.

Definition raise {A} (e : exn) : io A := λ i, Result [] (Raise e) i.

Definition print (s : string) : io unit := λ i, Result [Print s] (Return ()) i.

(** [input(prompt)]: at end of input Python raises [EOFError]. *)
Definition input (prompt : string) : io string := λ i,
  match i with
  | [] => Result [Prompt prompt] (Raise EOFError) []
  | line :: i' => Result [Prompt prompt] (Return line) i'
  end.

(** [d[k]] on a dictionary. *)
Definition getitem {V} (d : gmap string V) (k : string) : io V :=
  match d !! k with
  | Some v => mret v
  | None => raise (KeyError k)
  end.

(** A [for] loop that threads the variables it updates. *)
Fixpoint for_fold {A S} (xs : list A) (body : S → A → io S) (s : S) : io S :=
  match xs with
  | [] => mret s
  | x :: xs' => s' ← body s x; for_fold xs' body s'
  end.

(** A [for] loop whose body only has effects. *)
Definition for_ {A} (xs : list A) (body : A → io unit) : io unit :=
  for_fold xs (λ _ x, body x) ().

(** ** load_assessment_data *)

(** What [pd.read_csv] does with the file: [Loaded df] when it gives a
    frame with the eight required columns and the default index, the
    catalog as the specification has it; [Failed e] when it raises an
    exception whose text is [e]. A file that loads as anything else, a
    frame without a required column or with an index of its own, is not
    covered. *)
Inductive csv_file : Type :=
  | Loaded (df : DataFrame)
  | Failed (e : string).

Definition load_assessment_data (csv : csv_file) : io (option DataFrame) :=
  match csv with
  | Loaded df => mret (Some df)
  | Failed e =>
      print ("Error loading CSV file: " +:+ e);;
      mret None
  end.

(** ** select_lifts *)

Definition select_lifts : io (list string) :=
  print (nl +:+ "=== LIFT SELECTION ===" +:+ nl);;
  print "Which lift(s) will you be performing today?";;
  let lifts := [] in
  s ← input "Squat? (y/n): ";
  let squat := bool_decide (lower s = "y") in
  s ← input "Bench? (y/n): ";
  let bench := bool_decide (lower s = "y") in
  s ← input "Deadlift? (y/n): ";
  let deadlift := bool_decide (lower s = "y") in
  let lifts := if squat : bool then lifts ++ ["squat"] else lifts in
  let lifts := if bench : bool then lifts ++ ["bench"] else lifts in
  let lifts := if deadlift : bool then lifts ++ ["deadlift"] else lifts in
  mret lifts.

(** ** get_relevant_tests *)

(** The inner loop: [for test in tests: relevant_areas.add(test)]. *)
Definition add_all (tests : list string) (relevant_areas : gset string) : gset string :=
  foldl (λ acc test, acc ∪ {[test]}) relevant_areas tests.

(** The outer loop; [LIFT_SPECIFIC_TESTS[lift]] raises [KeyError] for a
    name that is not a key of the table. *)
Fixpoint get_relevant_tests_loop (lifts : list string) (relevant_areas : gset string)
  : outcome (gset string) :=
  match lifts with
  | [] => Return relevant_areas
  | lift :: lifts' =>
      match LIFT_SPECIFIC_TESTS !! lift with
      | None => Raise (KeyError lift)
      | Some tests => get_relevant_tests_loop lifts' (add_all tests relevant_areas)
      end
  end.

Definition get_relevant_tests (lifts : list string) : outcome (gset string) :=
  let relevant_areas := list_to_set FUNDAMENTAL_TESTS in
  get_relevant_tests_loop lifts relevant_areas.

(** A call of a function without console effects. *)
Definition call {A} (o : outcome A) : io A := λ i, Result [] o i.

(** ** run_assessment: the loop over the catalog *)

(** [assessment_data.iterrows()]: each row with its index. *)
Definition iterrows (assessment_data : DataFrame) : list (nat * TestRow) :=
  imap (λ index row, (index, row)) assessment_data.

(** [assessment_data.iloc[idx]] *)
Definition iloc (assessment_data : DataFrame) (idx : nat) : io TestRow :=
  match assessment_data !! idx with
  | Some row => mret row
  | None => raise IndexError
  end.

(** [xs[i]] on a list. *)
Definition list_getitem {A} (xs : list A) (i : nat) : io A :=
  match xs !! i with
  | Some x => mret x
  | None => raise IndexError
  end.

Definition question : string := nl +:+ "Did you fail this test? (y/n/skip): ".
Definition invalid_response : string :=
  "Invalid response. Please enter 'y', 'n', or 'skip'.".

(** The [while True] loop of one test: each turn reads one line, so the
    loop is a recursion on the lines of standard input still unread. *)
Fixpoint ask_response (i : list string) : result string :=
  match i with
  | [] => Result [Prompt question] (Raise EOFError) []
  | line :: i' =>
      let response := lower line in
      if bool_decide (response ∈ ["y"; "n"; "skip"]) then
        Result [Prompt question] (Return response) i'
      else
        let r := ask_response i' in
        Result (Prompt question :: Print invalid_response :: out r) (res r) (rest r)
  end.

(** The body of the [for index, row in assessment_data.iterrows()] loop;
    the threaded variable is [failed_tests]. *)
Definition assess_row (relevant_areas : gset string) (failed_tests : list nat)
    (entry : nat * TestRow) : io (list nat) :=
  let '(index, row) := entry in
  let area := Area row in
  if negb (cell_in_set area relevant_areas) then
    mret failed_tests
  else
    let test := Test row in
    let description := Test_Description row in
    let fail_criteria := Fail_Criteria row in
    print (nl +:+ "--- " +:+ fmt area +:+ ": " +:+ fmt test +:+ " ---");;
    print ("Description: " +:+ fmt description);;
    print ("You fail if: " +:+ fmt fail_criteria);;
    response ← ask_response;
    if bool_decide (response = "y") then
      mret (failed_tests ++ [index])
    else
      mret failed_tests.

Definition assessment_loop (assessment_data : DataFrame) (relevant_areas : gset string)
  : io (list nat) :=
  for_fold (iterrows assessment_data) (assess_row relevant_areas) [].

(** ** generate_warmup_plan *)

(** One turn of the grouping loop. [area_counts] is a dictionary; its
    [items()] come in the order the keys were first inserted, which the
    stable sort below makes visible, so it is an association list in that
    order. Keys are compared as cells, which is how the dictionary compares
    areas that are present. For a missing area the dictionary goes by the
    identity of the nan object it is handed, which depends on the type
    pandas gave the column; the theorems on the customized plan are
    therefore stated for failed rows whose area is present. *)
Fixpoint count_area (area : cell) (area_counts : list (cell * nat)) : list (cell * nat) :=
  match area_counts with
  | [] => [(area, 1)]
  | (a, n) :: area_counts' =>
      if bool_decide (a = area) then (a, n + 1) :: area_counts'
      else (a, n) :: count_area area area_counts'
  end.

(** [sorted(items, key=lambda x: x[1], reverse=True)]: Python's sort is
    stable, also with [reverse=True]; items of equal count keep their
    order. Insertion from the right realises exactly that. *)
Fixpoint insert_desc (x : cell * nat) (xs : list (cell * nat)) : list (cell * nat) :=
  match xs with
  | [] => [x]
  | y :: xs' => if bool_decide (x.2 < y.2) then y :: insert_desc x xs' else x :: xs
  end.

Definition sorted_desc (items : list (cell * nat)) : list (cell * nat) :=
  foldr insert_desc [] items.

(** [row[f"Solution_{j}"]] *)
Definition Solution_ (j : nat) (row : TestRow) : io cell :=
  match j with
  | 1 => mret (Solution_1 row)
  | 2 => mret (Solution_2 row)
  | 3 => mret (Solution_3 row)
  | 4 => mret (Solution_4 row)
  | _ => raise (KeyError ("Solution_" +:+ pretty j))
  end.

(** Lines 166-173. *)
Definition group_failed (assessment_data : DataFrame) (failed_indices : list nat)
  : io (list (cell * nat)) :=
  for_fold failed_indices (λ area_counts idx,
    row ← iloc assessment_data idx;
    let area := Area row in
    mret (count_area area area_counts)) [].

(** Lines 178-181. *)
Definition print_top_issues (sorted_areas : list (cell * nat)) : io unit :=
  print (nl +:+ "Your top issues are in these areas (prioritized):");;
  for_ sorted_areas (λ '(area, count), print ("- " +:+ fmt area)).

(** Lines 183-194. *)
Definition print_exercises (assessment_data : DataFrame) (failed_indices : list nat)
  : io unit :=
  print (nl +:+ "Perform these corrective exercises:");;
  let num_exercises := 5 `min` length failed_indices in
  for_ (seq 0 num_exercises) (λ i,
    idx ← list_getitem failed_indices i;
    row ← iloc assessment_data idx;
    print (nl +:+ "-- " +:+ fmt (Area row) +:+ ": " +:+ fmt (Test row) +:+ " --");;
    for_ (seq 1 3) (λ j,
      solution ← Solution_ j row;
      print ("  " +:+ pretty j +:+ ". " +:+ fmt solution))).

(** Lines 196-203. *)
Definition print_progressions (selected_lifts : list string) : io unit :=
  for_ selected_lifts (λ lift,
    print (nl +:+ "3. Standard " +:+ lift +:+ " progression:");;
    print "   - Empty bar: 10-15 reps";;
    print "   - 40% of working weight: 8-10 reps";;
    print "   - 60% of working weight: 5-8 reps";;
    print "   - 75% of working weight: 3-5 reps";;
    print "   - 85-90% of working weight: 1-2 reps (optional)").

(** Lines 211-222: the loop that fills [lift_specific_tips]. *)
Definition collect_tips (assessment_data : DataFrame) (failed_indices : list nat)
    (selected_lifts : list string) (lift_specific_tips : gmap string (list string))
  : io (gmap string (list string)) :=
  for_fold failed_indices (λ lift_specific_tips idx,
    row ← iloc assessment_data idx;
    if notna (Solution_4 row) then
      let area := Area row in
      let advice := Solution_4 row in
      for_fold selected_lifts (λ lift_specific_tips lift,
        tests ← getitem LIFT_SPECIFIC_TESTS lift;
        if cell_in_list area tests then
          tips ← getitem lift_specific_tips lift;
          mret (<[lift := tips ++ ["- " +:+ fmt area +:+ ": " +:+ fmt advice]]>
                  lift_specific_tips)
        else
          mret lift_specific_tips) lift_specific_tips
    else
      mret lift_specific_tips) lift_specific_tips.

(** Lines 205-229. *)
Definition print_implementation_notes (assessment_data : DataFrame)
    (failed_indices : list nat) (selected_lifts : list string) : io unit :=
  print (nl +:+ "=== IMPLEMENTATION NOTES ===");;
  print ("For your " +:+ join ", " selected_lifts +:+ " today, consider these adjustments:");;
  let lift_specific_tips : gmap string (list string) :=
    list_to_map ((λ lift, (lift, [])) <$> selected_lifts) in
  lift_specific_tips ←
    collect_tips assessment_data failed_indices selected_lifts lift_specific_tips;
  for_ selected_lifts (λ lift,
    tips ← getitem lift_specific_tips lift;
    if bool_decide (tips ≠ []) then
      print (nl +:+ "For " +:+ lift +:+ ":");;
      for_ tips (λ tip, print tip)
    else
      mret ()).

Definition generate_warmup_plan (assessment_data : DataFrame)
    (failed_indices : list nat) (selected_lifts : list string) : io unit :=
  if bool_decide (failed_indices = []) then
    print (nl +:+ "=== YOUR WARMUP PLAN ===" +:+ nl);;
    print "Congratulations! You passed all tests. Here's a basic warmup routine:";;
    print "1. 5-10 minutes of light cardio (rowing, cycling, or jumping jacks)";;
    for_ selected_lifts (λ lift,
      print (nl +:+ "2. Standard " +:+ lift +:+ " progression:");;
      print "   - Empty bar: 10-15 reps";;
      print "   - 40% of working weight: 8-10 reps";;
      print "   - 60% of working weight: 5-8 reps";;
      print "   - 75% of working weight: 3-5 reps";;
      print "   - 85-90% of working weight: 1-2 reps (optional)")
  else
    print (nl +:+ "=== YOUR CUSTOMIZED WARMUP PLAN ===" +:+ nl);;
    print "Based on your assessment, here's your personalized warmup routine:";;
    print (nl +:+ "1. Start with 5-10 minutes of light cardio (rowing, cycling, or jumping jacks)");;
    print (nl +:+ "2. Targeted mobility/stability work:");;
    area_counts ← group_failed assessment_data failed_indices;
    let sorted_areas := sorted_desc area_counts in
    print_top_issues sorted_areas;;
    print_exercises assessment_data failed_indices;;
    print_progressions selected_lifts;;
    print_implementation_notes assessment_data failed_indices selected_lifts.

(** ** run_assessment *)

(** [csv] is what reading [powerlifting-warmup-assessment.csv] gives. *)
Definition run_assessment (csv : csv_file) : io unit :=
  assessment_data ← load_assessment_data csv;
  match assessment_data with
  | None => mret ()
  | Some assessment_data =>
      selected_lifts ← select_lifts;
      print (nl +:+ "Selected lifts: " +:+ join ", " selected_lifts);;
      relevant_areas ← call (get_relevant_tests selected_lifts);
      print (nl +:+ "=== POWERLIFTING MOBILITY ASSESSMENT ===" +:+ nl);;
      print ("You'll be assessed on " +:+ pretty (size relevant_areas)
             +:+ " relevant tests for your selected lift(s).");;
      print ("Answer 'y' if you failed the test, 'n' if you passed, or 'skip' to skip a test."
             +:+ nl);;
      failed_tests ← assessment_loop assessment_data relevant_areas;
      generate_warmup_plan assessment_data failed_tests selected_lifts
  end.

(** * Reasoning about console computations *)

(** [emits m o a]: whatever the input, [m] writes the trace [o], returns
    [a] and reads nothing. *)
Definition emits {A} (m : io A) (o : list event) (a : A) : Prop :=
  ∀ i, m i = Result o (Return a) i.


(** ** The plan's fixed text *)

(** The bar-weight progression of one lift, under the step number given. *)
Definition standard_progression (number lift : string) : list event := [
  Print (nl +:+ number +:+ ". Standard " +:+ lift +:+ " progression:");
  Print "   - Empty bar: 10-15 reps";
  Print "   - 40% of working weight: 8-10 reps";
  Print "   - 60% of working weight: 5-8 reps";
  Print "   - 75% of working weight: 3-5 reps";
  Print "   - 85-90% of working weight: 1-2 reps (optional)" ].

(** The routine printed when no test failed. *)
Definition all_passed_template (selected_lifts : list string) : list event :=
  [ Print (nl +:+ "=== YOUR WARMUP PLAN ===" +:+ nl);
    Print "Congratulations! You passed all tests. Here's a basic warmup routine:";
    Print "1. 5-10 minutes of light cardio (rowing, cycling, or jumping jacks)" ]
  ++ concat (standard_progression "2" <$> selected_lifts).

Definition top_issues_header : event :=
  Print (nl +:+ "Your top issues are in these areas (prioritized):").
Definition exercises_header : event :=
  Print (nl +:+ "Perform these corrective exercises:").
Definition notes_header : event :=
  Print (nl +:+ "=== IMPLEMENTATION NOTES ===").

(** ** The assessment dialogue *)

(** The rows the loop shows: those whose area is relevant, with their
    indices, in catalog order. *)
Definition relevant_rows (relevant_areas : gset string) (assessment_data : DataFrame)
  : list (nat * TestRow) :=
  filter (λ entry, cell_in_set (Area entry.2) relevant_areas = true)
         (iterrows assessment_data).

(** What the user types at one shown row: some lines that are not
    accepted, then one that is. *)
Record answer : Type := Answer {
  rejected : list string;
  final : string
}.

Definition accepted (line : string) : Prop := lower line ∈ ["y"; "n"; "skip"].

Definition well_formed (a : answer) : Prop :=
  Forall (λ line, ¬ accepted line) (rejected a) ∧ accepted (final a).

Definition typed_lines (answers : list answer) : list string :=
  concat ((λ a, rejected a ++ [final a]) <$> answers).

(** The trace of one shown row: the three lines that present the test, a
    prompt and a complaint per rejected line, and the prompt that got the
    final response. *)
Definition shown (entry : nat * TestRow) (a : answer) : list event :=
  [ Print (nl +:+ "--- " +:+ fmt (Area entry.2) +:+ ": " +:+ fmt (Test entry.2) +:+ " ---");
    Print ("Description: " +:+ fmt (Test_Description entry.2));
    Print ("You fail if: " +:+ fmt (Fail_Criteria entry.2)) ]
  ++ concat ((λ _, [Prompt question; Print invalid_response]) <$> rejected a)
  ++ [Prompt question].

(** The indices of the shown rows answered with a final [y]. *)
Definition reported_failed (dialogue : list ((nat * TestRow) * answer)) : list nat :=
  (λ turn, turn.1.1) <$> filter (λ turn, lower (final turn.2) = "y") dialogue.

(** ** The customized plan *)

(** [failed_rows] are the catalog rows at [failed_indices], one by one. *)
Definition rows_at (assessment_data : DataFrame) (failed_indices : list nat)
    (failed_rows : list TestRow) : Prop :=
  Forall2 (λ idx row, assessment_data !! idx = Some row) failed_indices failed_rows.

(** The failed rows all have an area. The rows a run reports as failed
    always do: a row without one is not relevant and is never asked about. *)
Definition areas_present (failed_rows : list TestRow) : Prop :=
  Forall (λ row, notna (Area row) = true) failed_rows.

(** The grouping loop run on the areas of the failed rows. *)
Definition count_areas (areas : list cell) : list (cell * nat) :=
  foldl (λ area_counts area, count_area area area_counts) [] areas.

(** How often an area occurs among the failures. *)
Definition occurrences (area : cell) (areas : list cell) : nat :=
  length (filter (λ a, a = area) areas).

(** Where an area is first met among the failures. *)
Fixpoint first_index (area : cell) (areas : list cell) : nat :=
  match areas with
  | [] => 0
  | a :: areas' => if bool_decide (a = area) then 0 else S (first_index area areas')
  end.

(** The distinct areas in the order they are first met. *)
Definition distinct (areas : list cell) : list cell :=
  foldl (λ seen area, if bool_decide (area ∈ seen) then seen else seen ++ [area]) [] areas.

(** [priority areas x y]: the entry [x] is to be listed before [y], having
    more failures, or as many and an area met earlier. *)
Definition priority (areas : list cell) : relation (cell * nat) := λ x y,
  y.2 < x.2 ∨ (x.2 = y.2 ∧ first_index x.1 areas < first_index y.1 areas).

(** [ranked before x y]: by count, and by the order [before] the items
    came in where the counts are equal. *)
Definition ranked (before : relation (cell * nat)) : relation (cell * nat) := λ x y,
  y.2 < x.2 ∨ (x.2 = y.2 ∧ before x y).

(** Every selected lift has its entry in the dictionary of tips. *)
Definition tips_keyed (selected_lifts : list string)
    (lift_specific_tips : gmap string (list string)) : Prop :=
  ∀ lift, lift ∈ selected_lifts → is_Some (lift_specific_tips !! lift).

Definition customized_header : list event := [
  Print (nl +:+ "=== YOUR CUSTOMIZED WARMUP PLAN ===" +:+ nl);
  Print "Based on your assessment, here's your personalized warmup routine:";
  Print (nl +:+ "1. Start with 5-10 minutes of light cardio (rowing, cycling, or jumping jacks)");
  Print (nl +:+ "2. Targeted mobility/stability work:") ].

(** One line of the top-issues list. *)
Definition issue_line (entry : cell * nat) : event := Print ("- " +:+ fmt entry.1).

(** One corrective-exercise block. *)
Definition exercise_block (row : TestRow) : list event := [
  Print (nl +:+ "-- " +:+ fmt (Area row) +:+ ": " +:+ fmt (Test row) +:+ " --");
  Print ("  1. " +:+ fmt (Solution_1 row));
  Print ("  2. " +:+ fmt (Solution_2 row));
  Print ("  3. " +:+ fmt (Solution_3 row)) ].

(** The text of a row's tip. *)
Definition tip_line (row : TestRow) : string :=
  "- " +:+ fmt (Area row) +:+ ": " +:+ fmt (Solution_4 row).

(** The tips of one lift: one per failed row that has a fourth solution
    and whose area is in the lift's list, in failure order. *)
Definition tips_for (lift : string) (failed_rows : list TestRow) : list string :=
  tip_line <$>
    filter (λ row, notna (Solution_4 row) = true ∧
                   cell_in_list (Area row) (default [] (LIFT_SPECIFIC_TESTS !! lift)) = true)
           failed_rows.

(** The section of one lift in the implementation notes. *)
Definition lift_notes (failed_rows : list TestRow) (lift : string) : list event :=
  match tips_for lift failed_rows with
  | [] => []
  | tips => Print (nl +:+ "For " +:+ lift +:+ ":") :: (Print <$> tips)
  end.

Definition implementation_notes (failed_rows : list TestRow) (selected_lifts : list string)
  : list event :=
  [ notes_header;
    Print ("For your " +:+ join ", " selected_lifts +:+ " today, consider these adjustments:") ]
  ++ concat (lift_notes failed_rows <$> selected_lifts).

(** The whole customized plan, for the failed rows and the selection. *)
Definition customized_plan (failed_rows : list TestRow) (selected_lifts : list string)
  : list event :=
  customized_header
  ++ (top_issues_header
        :: (issue_line <$> sorted_desc (count_areas (Area <$> failed_rows))))
  ++ (exercises_header :: concat (exercise_block <$> take 5 failed_rows))
  ++ concat (standard_progression "3" <$> selected_lifts)
  ++ implementation_notes failed_rows selected_lifts.

(** ** A small catalog and dialogue for the examples *)

Definition example_row (area test : string) (solution_2 solution_4 : cell) : TestRow := {|
  Area := Text area;
  Test := Text test;
  Test_Description := Text "Hold the position";
  Fail_Criteria := Text "Pain or restriction";
  Solution_1 := Text "Foam roll";
  Solution_2 := solution_2;
  Solution_3 := Text "Banded stretch";
  Solution_4 := solution_4
|}.

Definition example_catalog : DataFrame := [
  example_row "Hip Flexion" "Knee to chest" (Text "Couch stretch") (Text "Widen the stance");
  example_row "Lat Flexibility" "Wall slide" NaN NaN;
  example_row "Hip Flexion" "Deep squat hold" (Text "Goblet squat") (Text "Elevate the heels");
  example_row "CNS Fatigue" "Grip test" (Text "Rest") (Text "Lower the volume");
  example_row "Bench Setup" "Arch check" (Text "Scapular retraction") (Text "Use a spotter");
  example_row "Ankle Mobility" "Knee to wall" (Text "Calf stretch") NaN;
  example_row "Wrist Mobility" "Prayer stretch" NaN (Text "Use wrist wraps");
  example_row "Squat Pattern" "Bodyweight squat" (Text "Box squat") (Text "Slow the descent") ].

(** The areas of a squat session met in the example catalog. *)
Definition example_relevant : gset string :=
  list_to_set ["General Pain Assessment"; "Muscle Soreness"; "CNS Fatigue";
               "Hip Flexion"; "Lat Flexibility"; "Ankle Mobility"; "Squat Pattern"].

Definition example_answers : list answer := [
  Answer ["maybe"] "Y";
  Answer [] "n";
  Answer ["yes"; "no"] "y";
  Answer [] "SKIP";
  Answer [] "N";
  Answer ["Yy"] "y" ].

(** The catalog rows at the given indices. *)
Definition rows_of (assessment_data : DataFrame) (indices : list nat) : list TestRow :=
  omap (λ idx, assessment_data !! idx) indices.

(** ** Tactics for closed goals *)

Ltac solve_decidable := apply (bool_decide_unpack _); vm_compute; exact I.

Ltac solve_rows_at :=
  unfold rows_at; repeat (constructor; [reflexivity|]); constructor.

Ltac solve_selection :=
  let x := fresh in intros x; rewrite !elem_of_cons, !elem_of_nil; tauto.

(** ** The dialogue of a whole run *)

Definition selection_header : list event := [
  Print (nl +:+ "=== LIFT SELECTION ===" +:+ nl);
  Print "Which lift(s) will you be performing today?" ].

Definition selection_prompts : list event := [
  Prompt "Squat? (y/n): ";
  Prompt "Bench? (y/n): ";
  Prompt "Deadlift? (y/n): " ].

(** The lifts picked by the three lines of the selection. *)
Definition chosen_lifts (squat bench deadlift : string) : list string :=
  (if bool_decide (lower squat = "y") then ["squat"] else [])
  ++ (if bool_decide (lower bench = "y") then ["bench"] else [])
  ++ (if bool_decide (lower deadlift = "y") then ["deadlift"] else []).

(** What is printed between the selection and the first test. *)
Definition assessment_header (selected_lifts : list string) (relevant_areas : gset string)
  : list event := [
  Print (nl +:+ "Selected lifts: " +:+ join ", " selected_lifts);
  Print (nl +:+ "=== POWERLIFTING MOBILITY ASSESSMENT ===" +:+ nl);
  Print ("You'll be assessed on " +:+ pretty (size relevant_areas)
         +:+ " relevant tests for your selected lift(s).");
  Print ("Answer 'y' if you failed the test, 'n' if you passed, or 'skip' to skip a test."
         +:+ nl) ].

(** The three lines that present a test. *)
Definition presented (entry : nat * TestRow) : list event := [
  Print (nl +:+ "--- " +:+ fmt (Area entry.2) +:+ ": " +:+ fmt (Test entry.2) +:+ " ---");
  Print ("Description: " +:+ fmt (Test_Description entry.2));
  Print ("You fail if: " +:+ fmt (Fail_Criteria entry.2)) ].

(** The prompt and the complaint, once per line that is not accepted. *)
Definition reprompts (rejected_lines : list string) : list event :=
  concat ((λ _, [Prompt question; Print invalid_response]) <$> rejected_lines).

Definition is_print (e : event) : Prop :=
  match e with Print _ => True | Prompt _ => False end.

(** [quiet m]: [m] leaves standard input alone: it reads nothing, prompts
    for nothing, and does the same whatever the input holds. *)
Definition quiet {A} (m : io A) : Prop :=
  ∀ i, rest (m i) = i ∧ out (m i) = out (m []) ∧ res (m i) = res (m []) ∧
       Forall is_print (out (m i)).

(** The plan for the failures reported: the all-passed template when there
    are none. *)
Definition plan_for (assessment_data : DataFrame) (failed_indices : list nat)
    (selected_lifts : list string) : list event :=
  match failed_indices with
  | [] => all_passed_template selected_lifts
  | _ => customized_plan (rows_of assessment_data failed_indices) selected_lifts
  end.

(** The two lines that open the implementation notes. *)
Definition notes_heading (selected_lifts : list string) : list event := [
  notes_header;
  Print ("For your " +:+ join ", " selected_lifts +:+ " today, consider these adjustments:") ].

(** The customized plan up to and including the heading of the notes. *)
Definition customized_plan_head (failed_rows : list TestRow) (selected_lifts : list string)
  : list event :=
  customized_header
  ++ (top_issues_header
        :: (issue_line <$> sorted_desc (count_areas (Area <$> failed_rows))))
  ++ (exercises_header :: concat (exercise_block <$> take 5 failed_rows))
  ++ concat (standard_progression "3" <$> selected_lifts)
  ++ notes_heading selected_lifts.

(** The body of the loop over the lifts in [collect_tips], for one row. *)
Definition attribute_tip (row : TestRow) (lift_specific_tips : gmap string (list string))
    (lift : string) : io (gmap string (list string)) :=
  tests ← getitem LIFT_SPECIFIC_TESTS lift;
  if cell_in_list (Area row) tests then
    tips ← getitem lift_specific_tips lift;
    mret (<[lift := tips ++ ["- " +:+ fmt (Area row) +:+ ": " +:+ fmt (Solution_4 row)]]>
            lift_specific_tips)
  else
    mret lift_specific_tips.

(** The word skip written with the Kelvin sign for its k. *)
Definition kelvin_skip : string := "s" +:+ kelvin_sign +:+ "ip".
Lemma emits_ret {A} (a : A) : emits (mret a) [] a.
Proof. by intros i. Qed.

Lemma emits_print s : emits (print s) [Print s] ().
Proof. by intros i. Qed.

Lemma bind_run {A B} (m : io A) (f : A → io B) i o a i' :
  m i = Result o (Return a) i' →
  (m ≫= f) i = Result (o ++ out (f a i')) (res (f a i')) (rest (f a i')).
Proof.
  intros Hm. unfold mbind, io_mbind, io_bind. by rewrite Hm.
Qed.

Lemma bind_emits {A B} (m : io A) (f : A → io B) o a i :
  emits m o a →
  (m ≫= f) i = Result (o ++ out (f a i)) (res (f a i)) (rest (f a i)).
Proof. intros Hm. by apply bind_run. Qed.

Lemma emits_bind {A B} (m : io A) (f : A → io B) o a o' b :
  emits m o a → emits (f a) o' b → emits (m ≫= f) (o ++ o') b.
Proof.
  intros Hm Hf i. rewrite (bind_emits _ _ _ _ _ Hm). by rewrite Hf.
Qed.

Lemma emits_print_then {B} s (k : io B) o b :
  emits k o b → emits (print s;; k) (Print s :: o) b.
Proof. intros Hk. apply (emits_bind _ _ [Print s] () o b); [apply emits_print | done]. Qed.

(** A loop whose body keeps an invariant and is silent computes a fold. *)
Lemma emits_for_fold_inv {A S} (P : S → Prop) (h : S → A → S)
    (body : S → A → io S) (xs : list A) (s : S) :
  (∀ s x, x ∈ xs → P s → emits (body s x) [] (h s x) ∧ P (h s x)) →
  P s →
  emits (for_fold xs body s) [] (foldl h s xs) ∧ P (foldl h s xs).
Proof.
  revert s. induction xs as [|x xs IH]; intros s Hbody Hs; simpl.
  - split; [apply emits_ret | done].
  - destruct (Hbody s x) as [Hx HP]; [left | done |].
    destruct (IH (h s x)) as [Hxs HP']; [|done|].
    { intros s' y Hy. apply Hbody. by right. }
    split; [|done].
    apply (emits_bind _ _ [] _ [] _ Hx Hxs).
Qed.

(** A loop whose body only prints writes the traces of its turns in order. *)
Lemma emits_for {A} (g : A → list event) (body : A → io unit) (xs : list A) :
  (∀ x, x ∈ xs → emits (body x) (g x) ()) →
  emits (for_ xs body) (concat (g <$> xs)) ().
Proof.
  unfold for_. induction xs as [|x xs IH]; intros Hbody; simpl.
  - apply emits_ret.
  - apply (emits_bind _ _ (g x) () _ ()).
    + apply Hbody. left.
    + apply IH. intros y Hy. apply Hbody. by right.
Qed.

(** * The relevant-area set *)

Lemma elem_of_add_all tests relevant_areas area :
  area ∈ add_all tests relevant_areas ↔ area ∈ relevant_areas ∨ area ∈ tests.
Proof.
  unfold add_all. revert relevant_areas.
  induction tests as [|t tests IH]; intros S; simpl.
  - set_solver.
  - rewrite IH. set_solver.
Qed.

Lemma get_relevant_tests_loop_spec lifts relevant_areas :
  Forall (λ lift, is_Some (LIFT_SPECIFIC_TESTS !! lift)) lifts →
  ∃ result_areas,
    get_relevant_tests_loop lifts relevant_areas = Return result_areas ∧
    ∀ area, area ∈ result_areas ↔
      area ∈ relevant_areas ∨
      ∃ lift tests, lift ∈ lifts ∧ LIFT_SPECIFIC_TESTS !! lift = Some tests ∧ area ∈ tests.
Proof.
  intros Hvalid. revert relevant_areas.
  induction Hvalid as [|lift lifts [tests Htests] _ IH]; intros S; simpl.
  - exists S. split; [done|]. intros area. split; [by left|].
    intros [?|(lift & tests & Hin & _)]; [done|]. by apply elem_of_nil in Hin.
  - rewrite Htests. destruct (IH (add_all tests S)) as (R & -> & HR).
    exists R. split; [done|]. intros area. rewrite HR, elem_of_add_all. split.
    + intros [[?|?]|(l & ts & Hl & Hts & Ha)].
      * by left.
      * right. exists lift, tests. split_and!; [left | done | done].
      * right. exists l, ts. split_and!; [by right | done | done].
    + intros [?|(l & ts & Hl & Hts & Ha)]; [by left; left|].
      apply elem_of_cons in Hl as [->|Hl].
      * left; right. congruence.
      * right. by exists l, ts.
Qed.

(** The three lifts are exactly the keys of [LIFT_SPECIFIC_TESTS]. *)
Lemma lift_is_key lift :
  lift ∈ ["squat"; "bench"; "deadlift"] ↔ is_Some (LIFT_SPECIFIC_TESTS !! lift).
Proof.
  unfold LIFT_SPECIFIC_TESTS. rewrite !lookup_insert_is_Some, lookup_empty.
  rewrite !elem_of_cons, elem_of_nil, <-not_eq_None_Some.
  naive_solver.
Qed.

Lemma valid_selection lifts :
  lifts ⊆ ["squat"; "bench"; "deadlift"] →
  Forall (λ lift, is_Some (LIFT_SPECIFIC_TESTS !! lift)) lifts.
Proof.
  intros Hsub. apply Forall_forall. intros lift Hin. apply lift_is_key. by apply Hsub.
Qed.

(** * Claims about the relevant-area set *)

(** C1. For a selection drawn from squat, bench and deadlift,
    [get_relevant_tests] returns a set, and an area belongs to it exactly
    when it is fundamental or is listed for a selected lift; so every
    fundamental area belongs to it, and for the empty selection the set is
    that of the fundamental areas. *)
Theorem get_relevant_tests_membership (lifts : list string) :
  lifts ⊆ ["squat"; "bench"; "deadlift"] →
  ∃ relevant_areas : gset string,
    get_relevant_tests lifts = Return relevant_areas ∧
    (∀ area, area ∈ relevant_areas ↔
       area ∈ FUNDAMENTAL_TESTS ∨
       ∃ lift tests, lift ∈ lifts ∧ LIFT_SPECIFIC_TESTS !! lift = Some tests ∧ area ∈ tests) ∧
    (∀ area, area ∈ FUNDAMENTAL_TESTS → area ∈ relevant_areas) ∧
    (lifts = [] → relevant_areas = list_to_set FUNDAMENTAL_TESTS).
Proof.
  intros Hsub. unfold get_relevant_tests.
  destruct (get_relevant_tests_loop_spec lifts (list_to_set FUNDAMENTAL_TESTS))
    as (R & HR & Hmem); [by apply valid_selection|].
  exists R. split; [done|]. split_and!.
  - intros area. rewrite Hmem, elem_of_list_to_set. done.
  - intros area Hin. apply Hmem. left. by apply elem_of_list_to_set.
  - intros ->. cbn [get_relevant_tests_loop] in HR. by injection HR.
Qed.

Lemma get_relevant_tests_membership_witness :
  ["squat"; "deadlift"] ⊆ ["squat"; "bench"; "deadlift"] ∧
  ∃ relevant_areas : gset string,
    get_relevant_tests ["squat"; "deadlift"] = Return relevant_areas ∧
    (∀ area, area ∈ relevant_areas ↔
       area ∈ FUNDAMENTAL_TESTS ∨
       ∃ lift tests, lift ∈ ["squat"; "deadlift"] ∧
         LIFT_SPECIFIC_TESTS !! lift = Some tests ∧ area ∈ tests) ∧
    (∀ area, area ∈ FUNDAMENTAL_TESTS → area ∈ relevant_areas) ∧
    (["squat"; "deadlift"] = [] → relevant_areas = list_to_set FUNDAMENTAL_TESTS).
Proof.
  assert (H : ["squat"; "deadlift"] ⊆ ["squat"; "bench"; "deadlift"]).
  { intros x Hx. apply elem_of_cons in Hx as [->|Hx]; [left|].
    apply elem_of_cons in Hx as [->|Hx]; [right; right; left|].
    by apply elem_of_nil in Hx. }
  split; [exact H|]. exact (get_relevant_tests_membership ["squat"; "deadlift"] H).
Defined.

(** C8. Resolving the relevant areas depends on the selection as a set
    only: two selections with the same lifts, in whatever order and
    multiplicity, and so also one selection resolved twice, give the same
    set of areas. *)
Theorem get_relevant_tests_deterministic (lifts1 lifts2 : list string) :
  lifts1 ⊆ ["squat"; "bench"; "deadlift"] →
  (∀ lift, lift ∈ lifts1 ↔ lift ∈ lifts2) →
  ∃ relevant_areas : gset string,
    get_relevant_tests lifts1 = Return relevant_areas ∧
    get_relevant_tests lifts2 = Return relevant_areas.
Proof.
  intros Hsub Hsame. unfold get_relevant_tests.
  destruct (get_relevant_tests_loop_spec lifts1 (list_to_set FUNDAMENTAL_TESTS))
    as (R1 & HR1 & Hmem1); [by apply valid_selection|].
  destruct (get_relevant_tests_loop_spec lifts2 (list_to_set FUNDAMENTAL_TESTS))
    as (R2 & HR2 & Hmem2).
  { apply valid_selection. intros lift Hin. apply Hsub. by apply Hsame. }
  exists R1. split; [done|]. rewrite HR2. f_equal.
  apply set_eq. intros area. rewrite Hmem1, Hmem2.
  split; (intros [?|(lift & tests & Hin & Htests & Ha)]; [by left|]);
    right; exists lift, tests; split_and!; try done; by apply Hsame.
Qed.

Lemma get_relevant_tests_deterministic_witness :
  ["bench"; "squat"] ⊆ ["squat"; "bench"; "deadlift"] ∧
  (∀ lift, lift ∈ ["bench"; "squat"] ↔ lift ∈ ["squat"; "bench"; "squat"]) ∧
  ∃ relevant_areas : gset string,
    get_relevant_tests ["bench"; "squat"] = Return relevant_areas ∧
    get_relevant_tests ["squat"; "bench"; "squat"] = Return relevant_areas.
Proof.
  assert (H1 : ["bench"; "squat"] ⊆ ["squat"; "bench"; "deadlift"]).
  { intros x. rewrite !elem_of_cons, !elem_of_nil. tauto. }
  assert (H2 : ∀ lift, lift ∈ ["bench"; "squat"] ↔ lift ∈ ["squat"; "bench"; "squat"]).
  { intros x. rewrite !elem_of_cons, !elem_of_nil. tauto. }
  split; [exact H1|]. split; [exact H2|].
  exact (get_relevant_tests_deterministic _ _ H1 H2).
Defined.

(** * Claims about the two ends of a run *)

(** C6. With no failed test the plan is the all-passed template whatever
    the catalog holds: the cardio line and the fixed progression of each
    selected lift, with no top-issues list, no corrective exercises and no
    implementation notes. *)
Theorem generate_warmup_plan_all_passed
    (assessment_data : DataFrame) (selected_lifts : list string) (i : list string) :
  generate_warmup_plan assessment_data [] selected_lifts i
    = Result (all_passed_template selected_lifts) (Return ()) i
  ∧ (top_issues_header ∉ all_passed_template selected_lifts)
  ∧ (exercises_header ∉ all_passed_template selected_lifts)
  ∧ (notes_header ∉ all_passed_template selected_lifts).
Proof.
  split.
  - unfold generate_warmup_plan, all_passed_template. simpl bool_decide. cbv iota.
    do 3 apply emits_print_then.
    apply emits_for. intros lift _. unfold standard_progression.
    do 5 apply emits_print_then. apply emits_print.
  - assert (Hfresh : ∀ s, (∀ lift, Print s ∉ standard_progression "2" lift) →
        s ≠ nl +:+ "=== YOUR WARMUP PLAN ===" +:+ nl →
        s ≠ "Congratulations! You passed all tests. Here's a basic warmup routine:" →
        s ≠ "1. 5-10 minutes of light cardio (rowing, cycling, or jumping jacks)" →
        Print s ∉ all_passed_template selected_lifts).
    { intros s Hprog H1 H2 H3. unfold all_passed_template.
      rewrite elem_of_app, !elem_of_cons, elem_of_nil.
      intros [[?|[?|[?|[]]]]|Hin]; try congruence.
      apply list_elem_of_In in Hin. apply in_concat in Hin as (block & Hblock & Hin).
      apply list_elem_of_In in Hblock. apply list_elem_of_fmap in Hblock as (lift & -> & _).
      by apply (Hprog lift), list_elem_of_In. }
    unfold top_issues_header, exercises_header, notes_header.
    split_and!; apply Hfresh; try discriminate;
      intros lift; unfold standard_progression;
      rewrite !elem_of_cons, elem_of_nil; intros [?|[?|[?|[?|[?|[?|[]]]]]]];
      discriminate.
Qed.

(** C7. When the CSV cannot be loaded the run prints the error message and
    returns at once: the message is the whole trace, nothing is read, and
    so there is no prompt and no plan. *)
Theorem run_assessment_load_failure (e : string) (i : list string) :
  run_assessment (Failed e) i
    = Result [Print ("Error loading CSV file: " +:+ e)] (Return ()) i.
Proof. reflexivity. Qed.

(** * The assessment loop *)

Lemma ask_response_spec (a : answer) (more : list string) :
  well_formed a →
  ask_response (rejected a ++ final a :: more)
    = Result (concat ((λ _, [Prompt question; Print invalid_response]) <$> rejected a)
                ++ [Prompt question])
             (Return (lower (final a))) more.
Proof.
  destruct a as [rej fin]. unfold well_formed, accepted. simpl. intros [Hrej Hfin].
  induction Hrej as [|line rej Hline _ IH]; simpl.
  - by rewrite bool_decide_eq_true_2.
  - rewrite bool_decide_eq_false_2 by done. by rewrite IH.
Qed.

(** A row whose area is not relevant is passed over in silence. *)
Lemma assess_row_skipped relevant_areas failed_tests index row :
  cell_in_set (Area row) relevant_areas = false →
  emits (assess_row relevant_areas failed_tests (index, row)) [] failed_tests.
Proof. intros Hrel i. unfold assess_row. by rewrite Hrel. Qed.

(** A relevant row is shown and asked about until a line is accepted. *)
Lemma assess_row_shown relevant_areas failed_tests index row (a : answer) more :
  cell_in_set (Area row) relevant_areas = true →
  well_formed a →
  assess_row relevant_areas failed_tests (index, row) (rejected a ++ final a :: more)
    = Result (shown (index, row) a)
             (Return (if bool_decide (lower (final a) = "y")
                      then failed_tests ++ [index] else failed_tests))
             more.
Proof.
  intros Hrel Ha. unfold assess_row. rewrite Hrel. cbn [negb].
  do 3 (rewrite (bind_emits _ _ _ _ _ (emits_print _)); cbn [out res rest app]).
  rewrite (bind_run _ _ _ _ _ _ (ask_response_spec a _ Ha)).
  unfold shown. cbn [snd app].
  destruct (bool_decide (lower (final a) = "y"));
    cbn [out res rest mret io_mret io_ret]; by rewrite app_nil_r.
Qed.

(** The loop over any list of indexed rows, from any list of failures
    recorded so far. *)
Lemma assess_rows_spec relevant_areas (entries : list (nat * TestRow)) :
  ∀ (failed_tests : list nat) (answers : list answer) (more : list string),
  let shown_entries :=
    filter (λ entry, cell_in_set (Area entry.2) relevant_areas = true) entries in
  length answers = length shown_entries →
  Forall well_formed answers →
  for_fold entries (assess_row relevant_areas) failed_tests (typed_lines answers ++ more)
    = Result (concat (zip_with shown shown_entries answers))
             (Return (failed_tests ++ reported_failed (zip shown_entries answers)))
             more.
Proof.
  induction entries as [|[index row] entries IH]; intros failed answers more.
  - simpl. destruct answers; [|done]. intros _ _. simpl.
    by rewrite app_nil_r.
  - cbn zeta. rewrite filter_cons. cbn [snd].
    destruct (cell_in_set (Area row) relevant_areas) eqn:Hrel.
    + rewrite decide_True by done.
      destruct answers as [|a answers]; [done|].
      intros Hlen Hwf. apply Forall_cons in Hwf as [Ha Hwf].
      injection Hlen as Hlen.
      cbn [for_fold]. unfold typed_lines. cbn [fmap list_fmap concat].
      rewrite <-!app_assoc. cbn [app].
      rewrite (bind_run _ _ _ _ _ _
                 (assess_row_shown relevant_areas failed index row a _ Hrel Ha)).
      fold (typed_lines answers). rewrite (IH _ _ _ Hlen Hwf).
      cbn [out res rest zip_with concat]. f_equal. f_equal.
      unfold reported_failed. cbn [zip_with]. rewrite filter_cons. cbn [snd].
      destruct (bool_decide_reflect (lower (final a) = "y")) as [Hy|Hy].
      * rewrite decide_True by done. cbn [fmap list_fmap fst]. by rewrite <-app_assoc.
      * by rewrite decide_False.
    + rewrite decide_False by done.
      intros Hlen Hwf. cbn [for_fold].
      rewrite (bind_emits _ _ _ _ _ (assess_row_skipped _ failed index row Hrel)).
      cbn [app]. by rewrite (IH _ _ _ Hlen Hwf).
Qed.

(** [iterrows] pairs every row with its position. *)
Lemma iterrows_lookup assessment_data (k index : nat) (row : TestRow) :
  iterrows assessment_data !! k = Some (index, row) ↔
  index = k ∧ assessment_data !! k = Some row.
Proof.
  unfold iterrows. rewrite list_lookup_imap.
  destruct (assessment_data !! k) as [r|]; simpl; split.
  - intros ?. by simplify_eq.
  - intros [-> ?]. by simplify_eq.
  - done.
  - by intros [_ [=]].
Qed.

(** C2. The assessment loop goes through the catalog in order. Rows whose
    area is not relevant leave no trace and are not recorded. At every
    shown row each line that is not y, n or skip (in any letter case) is
    answered by the complaint and the same prompt again, for the same row;
    the accepted line moves on to the next row. The loop returns the
    indices of the shown rows whose accepted line was y, in catalog
    order, and has read exactly the lines of the dialogue. *)
Theorem assessment_loop_spec (assessment_data : DataFrame) (relevant_areas : gset string)
    (answers : list answer) (more : list string) :
  length answers = length (relevant_rows relevant_areas assessment_data) →
  Forall well_formed answers →
  assessment_loop assessment_data relevant_areas (typed_lines answers ++ more)
    = Result
        (concat (zip_with shown (relevant_rows relevant_areas assessment_data) answers))
        (Return (reported_failed (zip (relevant_rows relevant_areas assessment_data) answers)))
        more.
Proof.
  intros Hlen Hwf. unfold assessment_loop.
  by rewrite (assess_rows_spec relevant_areas (iterrows assessment_data) [] answers more Hlen Hwf).
Qed.

(** * Grouping and sorting the failed areas *)

Section grouping.
Implicit Types (area a b : cell) (areas : list cell).

Lemma occurrences_snoc areas a b :
  occurrences b (areas ++ [a])
    = if bool_decide (a = b) then S (occurrences b areas) else occurrences b areas.
Proof.
  unfold occurrences. rewrite filter_app, length_app, filter_cons, filter_nil.
  destruct (bool_decide_reflect (a = b)).
  - rewrite decide_True by done. simpl. lia.
  - rewrite decide_False by done. simpl. lia.
Qed.

Lemma occurrences_absent areas a : a ∉ areas → occurrences a areas = 0.
Proof.
  unfold occurrences. induction areas as [|b areas IH]; [done|].
  rewrite not_elem_of_cons. intros [Hne Hnin].
  rewrite filter_cons, decide_False by done. by apply IH.
Qed.

Lemma first_index_present areas areas' a :
  a ∈ areas →
  first_index a (areas ++ areas') = first_index a areas ∧
  first_index a areas < length areas.
Proof.
  induction areas as [|b areas IH]; [by intros ?%elem_of_nil|].
  intros Hin. simpl. destruct (bool_decide_reflect (b = a)) as [->|Hne].
  - split; [done|lia].
  - apply elem_of_cons in Hin as [->|Hin]; [done|].
    destruct (IH Hin) as [-> ?]. split; [done|lia].
Qed.

Lemma first_index_fresh areas a :
  a ∉ areas → first_index a (areas ++ [a]) = length areas.
Proof.
  induction areas as [|b areas IH]; simpl.
  - intros _. by rewrite bool_decide_eq_true_2.
  - rewrite not_elem_of_cons. intros [Hne Hnin].
    rewrite bool_decide_eq_false_2 by done. by rewrite IH.
Qed.

Lemma distinct_snoc areas a :
  distinct (areas ++ [a])
    = if bool_decide (a ∈ distinct areas) then distinct areas else distinct areas ++ [a].
Proof. unfold distinct. by rewrite foldl_snoc. Qed.

Lemma elem_of_distinct areas a : a ∈ distinct areas ↔ a ∈ areas.
Proof.
  induction areas as [|b areas IH] using rev_ind; [done|].
  rewrite distinct_snoc. destruct (bool_decide_reflect (b ∈ distinct areas)) as [Hin|Hnin].
  - rewrite elem_of_app, list_elem_of_singleton, IH.
    split; [by left|]. intros [?| ->]; [done|]. by apply IH.
  - by rewrite !elem_of_app, IH.
Qed.

Lemma NoDup_distinct areas : NoDup (distinct areas).
Proof.
  induction areas as [|b areas IH] using rev_ind; [constructor|].
  rewrite distinct_snoc. destruct (bool_decide_reflect (b ∈ distinct areas)); [done|].
  apply NoDup_app. split_and!; [done| |apply NoDup_singleton].
  intros x Hx ->%list_elem_of_singleton. done.
Qed.

(** Relating two orders that agree on the elements of the list. *)
Lemma StronglySorted_agree {A} (R1 R2 : relation A) (l : list A) :
  (∀ x y, x ∈ l → y ∈ l → R1 x y → R2 x y) →
  StronglySorted R1 l → StronglySorted R2 l.
Proof.
  intros Hagree Hsorted. induction Hsorted as [|x l _ IH Hx]; [constructor|].
  constructor.
  - apply IH. intros y z Hy Hz. apply Hagree; by right.
  - apply Forall_forall. intros y Hy. apply Hagree; [left|by right|].
    by apply (proj1 (Forall_forall _ _) Hx).
Qed.

Lemma distinct_sorted areas :
  StronglySorted (λ a b, first_index a areas < first_index b areas) (distinct areas).
Proof.
  induction areas as [|c areas IH] using rev_ind; [constructor|].
  assert (Hkeep : StronglySorted
            (λ a b, first_index a (areas ++ [c]) < first_index b (areas ++ [c]))
            (distinct areas)).
  { refine (StronglySorted_agree _ _ _ _ IH).
    intros a b Ha Hb. rewrite elem_of_distinct in Ha, Hb.
    destruct (first_index_present areas [c] a Ha) as [-> _].
    by destruct (first_index_present areas [c] b Hb) as [-> _]. }
  rewrite distinct_snoc. destruct (bool_decide_reflect (c ∈ distinct areas)) as [Hin|Hnin].
  - done.
  - apply StronglySorted_app_2; [|done|repeat constructor].
    intros a b Ha ->%list_elem_of_singleton. rewrite elem_of_distinct in Ha.
    rewrite elem_of_distinct in Hnin.
    destruct (first_index_present areas [c] a Ha) as [-> ?].
    by rewrite first_index_fresh.
Qed.

(** One step of the grouping loop on a table with distinct keys. *)
Lemma count_area_keyed area (count : cell → nat) (keys : list cell) :
  NoDup keys →
  count_area area ((λ a, (a, count a)) <$> keys)
    = if bool_decide (area ∈ keys)
      then (λ a, (a, if bool_decide (area = a) then count a + 1 else count a)) <$> keys
      else ((λ a, (a, count a)) <$> keys) ++ [(area, 1)].
Proof.
  induction 1 as [|k keys Hk Hnodup IH]; [done|].
  cbn [fmap list_fmap count_area]. destruct (bool_decide_reflect (k = area)) as [->|Hne].
  - rewrite bool_decide_eq_true_2 by left. cbn [fmap list_fmap].
    rewrite bool_decide_eq_true_2 by done. f_equal.
    apply list_fmap_ext. intros i a Ha. rewrite bool_decide_eq_false_2; [done|].
    intros ->. apply Hk. by eapply list_elem_of_lookup_2.
  - rewrite IH. destruct (bool_decide_reflect (area ∈ keys)) as [Hin|Hnin].
    + rewrite bool_decide_eq_true_2 by (by right). cbn [fmap list_fmap].
      by rewrite (bool_decide_eq_false_2 (area = k)).
    + rewrite bool_decide_eq_false_2; [done|].
      rewrite elem_of_cons. intros [?|?]; congruence.
Qed.

(** The grouping loop in closed form: the distinct areas in the order
    they are first met, each with the number of its failures. *)
Lemma count_areas_closed areas :
  count_areas areas = (λ a, (a, occurrences a areas)) <$> distinct areas.
Proof.
  induction areas as [|c areas IH] using rev_ind; [done|].
  unfold count_areas. rewrite foldl_snoc. fold (count_areas areas).
  rewrite IH, count_area_keyed by apply NoDup_distinct.
  rewrite distinct_snoc. destruct (bool_decide_reflect (c ∈ distinct areas)) as [Hin|Hnin].
  - apply list_fmap_ext. intros i a _. rewrite occurrences_snoc.
    destruct (bool_decide (c = a)); [|done]. f_equal. lia.
  - rewrite fmap_app. cbn [fmap list_fmap]. f_equal.
    + apply list_fmap_ext. intros k a Ha. rewrite occurrences_snoc.
      rewrite bool_decide_eq_false_2; [done|].
      intros ->. apply Hnin. by eapply list_elem_of_lookup_2.
    + rewrite occurrences_snoc, bool_decide_eq_true_2 by done.
      rewrite elem_of_distinct in Hnin. by rewrite occurrences_absent.
Qed.
End grouping.

Section sorting.
Implicit Types (x y : cell * nat) (items : list (cell * nat)).

Lemma insert_desc_Permutation x items : insert_desc x items ≡ₚ x :: items.
Proof.
  induction items as [|y items IH]; [done|]. simpl.
  destruct (bool_decide (x.2 < y.2)); [|done].
  rewrite IH. apply Permutation_swap.
Qed.

Lemma sorted_desc_Permutation items : sorted_desc items ≡ₚ items.
Proof.
  unfold sorted_desc. induction items as [|x items IH]; [done|]. simpl.
  by rewrite insert_desc_Permutation, IH.
Qed.

(** An item inserted in front of items that all come after it ends up
    behind those of greater count only. *)
Variable before : relation (cell * nat).

Lemma insert_desc_ranked x items :
  Forall (before x) items →
  StronglySorted (ranked before) items →
  StronglySorted (ranked before) (insert_desc x items).
Proof.
  intros Hx Hsorted. induction Hsorted as [|y items Hitems IH Hy]; simpl.
  - repeat constructor.
  - apply Forall_cons in Hx as [Hxy Hx].
    destruct (bool_decide_reflect (x.2 < y.2)) as [Hlt|Hge].
    + constructor; [by apply IH|].
      rewrite insert_desc_Permutation. constructor; [by left|done].
    + constructor; [by constructor|].
      constructor.
      * destruct (decide (x.2 = y.2)); [by right|left; lia].
      * apply Forall_forall. intros z Hz.
        pose proof (proj1 (Forall_forall _ _) Hy z Hz) as [?|[? _]];
        pose proof (proj1 (Forall_forall _ _) Hx z Hz);
        (destruct (decide (x.2 = z.2)); [by right|left; lia]).
Qed.

(** The sort is stable: by descending count, and in the order the items
    came in where the counts are equal. *)
Lemma sorted_desc_stable items :
  StronglySorted before items → StronglySorted (ranked before) (sorted_desc items).
Proof.
  unfold sorted_desc. induction 1 as [|x items _ IH Hx]; simpl; [constructor|].
  apply insert_desc_ranked; [|done].
  fold (sorted_desc items). by rewrite sorted_desc_Permutation.
Qed.
End sorting.

(** The list of top issues: every distinct failed area once, with the
    number of its failures, ordered by [priority]. *)
Lemma sorted_areas_spec (areas : list cell) :
  NoDup (sorted_desc (count_areas areas)).*1 ∧
  (∀ a n, (a, n) ∈ sorted_desc (count_areas areas) ↔ a ∈ areas ∧ n = occurrences a areas) ∧
  StronglySorted (priority areas) (sorted_desc (count_areas areas)).
Proof.
  split_and!.
  - rewrite sorted_desc_Permutation, count_areas_closed, <-list_fmap_compose.
    assert (Hkeys : ∀ keys : list cell,
              (fst ∘ (λ a, (a, occurrences a areas))) <$> keys = keys).
    { induction keys as [|k keys IH]; [done|]. cbn [fmap list_fmap]. by rewrite IH. }
    rewrite Hkeys. apply NoDup_distinct.
  - intros a n. rewrite sorted_desc_Permutation, count_areas_closed, list_elem_of_fmap.
    split.
    + intros (b & [= -> ->] & Hb). by rewrite elem_of_distinct in Hb.
    + intros [Ha ->]. exists a. by rewrite elem_of_distinct.
  - apply (sorted_desc_stable (λ x y, first_index x.1 areas < first_index y.1 areas)).
    rewrite count_areas_closed.
    apply (StronglySorted_fmap _ (λ a b, first_index a areas < first_index b areas)).
    + by intros a b.
    + apply distinct_sorted.
Qed.

(** * The sections of the customized plan *)

Lemma pretty_1_2_3 : pretty 1 = "1" ∧ pretty 2 = "2" ∧ pretty 3 = "3".
Proof. done. Qed.

Lemma concat_singletons {A B} (f : A → B) (l : list A) :
  concat ((λ x, [f x]) <$> l) = f <$> l.
Proof. induction l as [|x l IH]; [done|]. csimpl. by rewrite IH. Qed.

Lemma iloc_emits assessment_data idx row :
  assessment_data !! idx = Some row → emits (iloc assessment_data idx) [] row.
Proof. intros Hrow i. unfold iloc. by rewrite Hrow. Qed.

Lemma list_getitem_emits {A} (xs : list A) k x :
  xs !! k = Some x → emits (list_getitem xs k) [] x.
Proof. intros Hx i. unfold list_getitem. by rewrite Hx. Qed.

Lemma getitem_emits {V} (d : gmap string V) k v :
  d !! k = Some v → emits (getitem d k) [] v.
Proof. intros Hv i. unfold getitem. by rewrite Hv. Qed.

Lemma rows_at_lookup assessment_data failed_indices failed_rows k idx :
  rows_at assessment_data failed_indices failed_rows →
  failed_indices !! k = Some idx →
  ∃ row, failed_rows !! k = Some row ∧ assessment_data !! idx = Some row.
Proof. intros Hrows Hidx. by apply (Forall2_lookup_l _ _ _ _ _ Hrows Hidx). Qed.

Lemma group_failed_emits assessment_data failed_indices failed_rows :
  rows_at assessment_data failed_indices failed_rows →
  emits (group_failed assessment_data failed_indices) []
        (count_areas (Area <$> failed_rows)).
Proof.
  unfold group_failed, count_areas. generalize (@nil (cell * nat)) as area_counts.
  intros area_counts Hrows. revert area_counts.
  induction Hrows as [|idx row idxs rows Hrow _ IH]; intros area_counts.
  - apply emits_ret.
  - cbn [for_fold fmap list_fmap foldl].
    apply (emits_bind _ _ [] (count_area (Area row) area_counts) [] _); [|apply IH].
    apply (emits_bind _ _ [] row [] _); [by apply iloc_emits|apply emits_ret].
Qed.

Lemma print_top_issues_emits sorted_areas :
  emits (print_top_issues sorted_areas)
        (top_issues_header :: (issue_line <$> sorted_areas)) ().
Proof.
  unfold print_top_issues. apply emits_print_then.
  rewrite <-concat_singletons. apply emits_for.
  intros [area count] _. apply emits_print.
Qed.

Lemma print_block_emits row :
  emits (print (nl +:+ "-- " +:+ fmt (Area row) +:+ ": " +:+ fmt (Test row) +:+ " --");;
         for_ (seq 1 3) (λ j,
           solution ← Solution_ j row;
           print ("  " +:+ pretty j +:+ ". " +:+ fmt solution)))
        (exercise_block row) ().
Proof. by intros i. Qed.

Lemma blocks_take (rows : list TestRow) (n : nat) :
  n ≤ length rows →
  (λ k, match rows !! k with Some row => exercise_block row | None => [] end) <$> seq 0 n
    = exercise_block <$> take n rows.
Proof.
  induction n as [|n IH]; intros Hn; [done|].
  destruct (lookup_lt_is_Some_2 rows n) as [row Hrow]; [lia|].
  rewrite seq_S, fmap_app, IH by lia. cbn [fmap list_fmap plus].
  by rewrite Hrow, (take_S_r _ _ _ Hrow), fmap_app.
Qed.

Lemma print_exercises_emits assessment_data failed_indices failed_rows :
  rows_at assessment_data failed_indices failed_rows →
  emits (print_exercises assessment_data failed_indices)
        (exercises_header :: concat (exercise_block <$> take 5 failed_rows)) ().
Proof.
  intros Hrows. pose proof (Forall2_length _ _ _ Hrows) as Hlen.
  unfold print_exercises. apply emits_print_then. cbn zeta.
  assert (Htake : take 5 failed_rows = take (5 `min` length failed_indices) failed_rows).
  { destruct (decide (5 ≤ length failed_rows)).
    - by rewrite Hlen, Nat.min_l.
    - rewrite Hlen, Nat.min_r, !take_ge by lia. done. }
  rewrite Htake, <-blocks_take by lia.
  apply emits_for. intros k Hk. apply elem_of_seq in Hk.
  destruct (lookup_lt_is_Some_2 failed_indices k) as [idx Hidx]; [lia|].
  destruct (rows_at_lookup _ _ _ _ _ Hrows Hidx) as (row & -> & Hrow).
  apply (emits_bind _ _ [] idx _ _ (list_getitem_emits _ _ _ Hidx)).
  apply (emits_bind _ _ [] row _ _ (iloc_emits _ _ _ Hrow)).
  apply print_block_emits.
Qed.

Lemma print_progressions_emits selected_lifts :
  emits (print_progressions selected_lifts)
        (concat (standard_progression "3" <$> selected_lifts)) ().
Proof.
  unfold print_progressions. apply emits_for. intros lift _.
  unfold standard_progression. do 5 apply emits_print_then. apply emits_print.
Qed.

(** The customized plan up to the implementation notes. *)
Lemma generate_warmup_plan_customized assessment_data failed_indices failed_rows
    selected_lifts (i : list string) :
  failed_indices ≠ [] →
  rows_at assessment_data failed_indices failed_rows →
  generate_warmup_plan assessment_data failed_indices selected_lifts i
    = let notes := print_implementation_notes assessment_data failed_indices selected_lifts i in
      Result
        (customized_header
         ++ (top_issues_header
               :: (issue_line <$> sorted_desc (count_areas (Area <$> failed_rows))))
         ++ (exercises_header :: concat (exercise_block <$> take 5 failed_rows))
         ++ concat (standard_progression "3" <$> selected_lifts)
         ++ out notes)
        (res notes) (rest notes).
Proof.
  intros Hne Hrows. unfold generate_warmup_plan.
  rewrite bool_decide_eq_false_2 by done.
  do 4 (rewrite (bind_emits _ _ _ _ _ (emits_print _)); cbn [out res rest]).
  rewrite (bind_emits _ _ _ _ _ (group_failed_emits _ _ _ Hrows)); cbn [out res rest].
  rewrite (bind_emits _ _ _ _ _ (print_top_issues_emits _)); cbn [out res rest].
  rewrite (bind_emits _ _ _ _ _ (print_exercises_emits _ _ _ Hrows)); cbn [out res rest].
  rewrite (bind_emits _ _ _ _ _ (print_progressions_emits _)); cbn [out res rest].
  done.
Qed.

(** * The implementation notes *)

Section notes.
Variable selected_lifts : list string.
Hypothesis lifts_valid : selected_lifts ⊆ ["squat"; "bench"; "deadlift"].

Implicit Types (lift_specific_tips : gmap string (list string)).

(** The inner loop, over the lifts, for one failed row. *)
Lemma attribute_tip_emits (row : TestRow) (lifts : list string) :
  NoDup lifts → lifts ⊆ selected_lifts →
  ∀ lift_specific_tips, tips_keyed selected_lifts lift_specific_tips →
  ∃ tips',
    emits (for_fold lifts (λ lift_specific_tips lift,
             tests ← getitem LIFT_SPECIFIC_TESTS lift;
             if cell_in_list (Area row) tests then
               tips ← getitem lift_specific_tips lift;
               mret (<[lift := tips ++ ["- " +:+ fmt (Area row) +:+ ": "
                                          +:+ fmt (Solution_4 row)]]>
                       lift_specific_tips)
             else
               mret lift_specific_tips) lift_specific_tips) [] tips' ∧
    tips_keyed selected_lifts tips' ∧
    ∀ lift, tips' !! lift =
      if bool_decide (lift ∈ lifts)
         && cell_in_list (Area row) (default [] (LIFT_SPECIFIC_TESTS !! lift))
      then (λ tips, tips ++ [tip_line row]) <$> lift_specific_tips !! lift
      else lift_specific_tips !! lift.
Proof.
  induction 1 as [|l lifts Hl Hnodup IH]; intros Hsub m Hkeyed.
  - exists m. split_and!; [apply emits_ret|done|done].
  - assert (Hsel : l ∈ selected_lifts) by (apply Hsub; left).
    destruct (proj1 (lift_is_key l) (lifts_valid l Hsel)) as [tests Htests].
    destruct (Hkeyed l Hsel) as [tips Htips].
    set (m1 := if cell_in_list (Area row) tests
               then <[l := tips ++ [tip_line row]]> m else m).
    assert (Hkeyed1 : tips_keyed selected_lifts m1).
    { intros lift Hlift. subst m1. destruct (cell_in_list (Area row) tests); [|by apply Hkeyed].
      apply lookup_insert_is_Some. destruct (decide (l = lift)); [by left|right].
      split; [done|by apply Hkeyed]. }
    destruct (IH (λ x Hx, Hsub x (list_elem_of_further _ _ _ Hx)) m1 Hkeyed1)
      as (m' & Hemits & Hkeyed' & Hm').
    exists m'. split_and!; [|done|].
    + cbn [for_fold]. apply (emits_bind _ _ [] m1 [] m'); [|done].
      apply (emits_bind _ _ [] tests [] m1 (getitem_emits _ _ _ Htests)).
      subst m1. destruct (cell_in_list (Area row) tests); [|apply emits_ret].
      apply (emits_bind _ _ [] tips [] _ (getitem_emits _ _ _ Htips)). apply emits_ret.
    + intros lift. rewrite Hm'. destruct (decide (lift = l)) as [->|Hne].
      * rewrite (bool_decide_eq_false_2 (l ∈ lifts)) by done.
        rewrite (bool_decide_eq_true_2 (l ∈ l :: lifts)) by left.
        cbn [andb]. rewrite Htests. cbn [from_option id]. subst m1.
        destruct (cell_in_list (Area row) tests); [|done].
        by rewrite lookup_insert_eq, Htips.
      * assert (Hm1 : m1 !! lift = m !! lift).
        { subst m1. destruct (cell_in_list (Area row) tests); [|done].
          by rewrite lookup_insert_ne. }
        rewrite Hm1.
        destruct (bool_decide_reflect (lift ∈ lifts)) as [Hin|Hnin].
        -- by rewrite (bool_decide_eq_true_2 (lift ∈ l :: lifts)) by (by right).
        -- rewrite (bool_decide_eq_false_2 (lift ∈ l :: lifts)); [done|].
           rewrite elem_of_cons. by intros [?|?].
Qed.

Hypothesis lifts_distinct : NoDup selected_lifts.

Lemma tips_for_cons lift row failed_rows :
  tips_for lift (row :: failed_rows)
    = (if notna (Solution_4 row)
          && cell_in_list (Area row) (default [] (LIFT_SPECIFIC_TESTS !! lift))
       then [tip_line row] else [])
      ++ tips_for lift failed_rows.
Proof.
  unfold tips_for. rewrite filter_cons.
  destruct (notna (Solution_4 row)), (cell_in_list (Area row) _); cbn [andb].
  - by rewrite decide_True.
  - rewrite decide_False; [done|]. by intros [_ ?].
  - rewrite decide_False; [done|]. by intros [? _].
  - rewrite decide_False; [done|]. by intros [? _].
Qed.

(** The outer loop: afterwards every selected lift holds the tips it had
    followed by its tips from the failed rows. *)
Lemma collect_tips_emits assessment_data failed_indices failed_rows :
  rows_at assessment_data failed_indices failed_rows →
  ∀ lift_specific_tips, tips_keyed selected_lifts lift_specific_tips →
  ∃ tips',
    emits (collect_tips assessment_data failed_indices selected_lifts lift_specific_tips)
          [] tips' ∧
    ∀ lift, lift ∈ selected_lifts →
      tips' !! lift = (λ tips, tips ++ tips_for lift failed_rows) <$> lift_specific_tips !! lift.
Proof.
  unfold collect_tips.
  induction 1 as [|idx row idxs rows Hrow _ IH]; intros m Hkeyed.
  - exists m. split; [apply emits_ret|]. intros lift Hlift.
    destruct (Hkeyed lift Hlift) as [tips ->]. cbn. by rewrite app_nil_r.
  - destruct (notna (Solution_4 row)) eqn:Hnotna.
    + destruct (attribute_tip_emits row selected_lifts lifts_distinct (λ x Hx, Hx) m Hkeyed)
        as (m1 & Hemits1 & Hkeyed1 & Hm1).
      destruct (IH m1 Hkeyed1) as (m' & Hemits & Hm').
      exists m'. split.
      * cbn [for_fold]. apply (emits_bind _ _ [] m1 [] m'); [|done].
        apply (emits_bind _ _ [] row [] m1 (iloc_emits _ _ _ Hrow)).
        by rewrite Hnotna.
      * intros lift Hlift. rewrite (Hm' lift Hlift), Hm1, tips_for_cons, Hnotna.
        rewrite bool_decide_eq_true_2 by done. cbn [andb].
        destruct (Hkeyed lift Hlift) as [tips ->].
        destruct (cell_in_list (Area row) _); cbn; by rewrite <-?app_assoc.
    + destruct (IH m Hkeyed) as (m' & Hemits & Hm').
      exists m'. split.
      * cbn [for_fold]. apply (emits_bind _ _ [] m [] m'); [|done].
        apply (emits_bind _ _ [] row [] m (iloc_emits _ _ _ Hrow)).
        rewrite Hnotna. apply emits_ret.
      * intros lift Hlift. by rewrite (Hm' lift Hlift), tips_for_cons, Hnotna.
Qed.

Lemma initial_tips lift :
  lift ∈ selected_lifts →
  (list_to_map ((λ lift, (lift, [])) <$> selected_lifts) : gmap string (list string)) !! lift
    = Some [].
Proof.
  intros Hlift. apply elem_of_list_to_map.
  - rewrite <-list_fmap_compose.
    assert (Hkeys : ∀ lifts : list string,
              (fst ∘ (λ lift, (lift, @nil string))) <$> lifts = lifts).
    { induction lifts as [|l lifts IH]; [done|]. cbn [fmap list_fmap]. by rewrite IH. }
    by rewrite Hkeys.
  - apply list_elem_of_fmap. by exists lift.
Qed.

(** The notes of a selection of distinct lifts, for failed rows that are
    in the catalog. *)
Lemma print_implementation_notes_emits assessment_data failed_indices failed_rows :
  rows_at assessment_data failed_indices failed_rows →
  emits (print_implementation_notes assessment_data failed_indices selected_lifts)
        (implementation_notes failed_rows selected_lifts) ().
Proof.
  intros Hrows. unfold print_implementation_notes, implementation_notes.
  do 2 apply emits_print_then. cbn zeta.
  destruct (collect_tips_emits _ _ _ Hrows
              (list_to_map ((λ lift, (lift, [])) <$> selected_lifts)))
    as (tips' & Hemits & Htips').
  { intros lift Hlift. rewrite initial_tips by done. by eexists. }
  apply (emits_bind _ _ [] tips' _ () Hemits).
  apply emits_for. intros lift Hlift.
  assert (Hlookup : tips' !! lift = Some (tips_for lift failed_rows)).
  { by rewrite (Htips' lift Hlift), initial_tips. }
  apply (emits_bind _ _ [] _ _ () (getitem_emits _ _ _ Hlookup)).
  unfold lift_notes. destruct (tips_for lift failed_rows) as [|tip tips].
  - apply emits_ret.
  - rewrite bool_decide_eq_true_2 by done. apply emits_print_then.
    rewrite <-concat_singletons. apply emits_for. intros t _. apply emits_print.
Qed.
End notes.

(** * What a run hands to the plan generator *)

(** [select_lifts] returns distinct lifts among the three. *)
Lemma select_lifts_selection (i : list string) (lifts : list string) :
  res (select_lifts i) = Return lifts →
  lifts ⊆ ["squat"; "bench"; "deadlift"] ∧ NoDup lifts.
Proof.
  destruct i as [|a [|b [|c i]]]; try discriminate.
  intros Hres. cbn in Hres. injection Hres as <-.
  destruct (bool_decide (lower a = "y")), (bool_decide (lower b = "y")),
    (bool_decide (lower c = "y")); cbn [app];
    (split; [solve_selection|solve_decidable]).
Qed.

(** The indices the assessment loop reports are indices of catalog rows. *)
Lemma reported_failed_in_catalog (assessment_data : DataFrame)
    (relevant_areas : gset string) (answers : list answer) :
  ∃ failed_rows,
    rows_at assessment_data
      (reported_failed (zip (relevant_rows relevant_areas assessment_data) answers))
      failed_rows.
Proof.
  unfold reported_failed.
  set (turns := filter _ (zip (relevant_rows relevant_areas assessment_data) answers)).
  exists ((λ turn : nat * TestRow * answer, turn.1.2) <$> turns).
  unfold rows_at. apply Forall2_fmap, Forall_Forall2_diag, Forall_forall.
  intros [[index row] a] Hturn. cbn.
  apply list_elem_of_filter in Hturn as [_ Hturn].
  apply elem_of_zip_l in Hturn. cbn in Hturn.
  apply list_elem_of_filter in Hturn as [_ Hentry].
  apply list_elem_of_lookup in Hentry as [k Hk].
  by apply iterrows_lookup in Hk as [-> ?].
Qed.

(** * Claims about the customized plan *)

(** The customized plan in full, for failed rows that are in the catalog
    and a selection of distinct lifts. *)
Lemma generate_warmup_plan_customized_full assessment_data failed_indices failed_rows
    selected_lifts (i : list string) :
  failed_indices ≠ [] →
  rows_at assessment_data failed_indices failed_rows →
  selected_lifts ⊆ ["squat"; "bench"; "deadlift"] →
  NoDup selected_lifts →
  generate_warmup_plan assessment_data failed_indices selected_lifts i
    = Result (customized_plan failed_rows selected_lifts) (Return ()) i.
Proof.
  intros Hne Hrows Hvalid Hnodup.
  rewrite (generate_warmup_plan_customized _ _ _ _ _ Hne Hrows). cbn zeta.
  by rewrite (print_implementation_notes_emits _ Hvalid Hnodup _ _ _ Hrows).
Qed.

(** C3. In the customized plan, for failed rows whose area is present, the
    top-issues list names every distinct area of the failed rows once, an area with more failures before one
    with fewer, and of two areas with equally many failures the one met
    first in the failure list first. For the failures Hip Flexion, Lat
    Flexibility, Hip Flexion the list is Hip Flexion (2), then Lat
    Flexibility (1). *)
Theorem top_issues_by_count_then_encounter
    (assessment_data : DataFrame) (failed_indices : list nat) (failed_rows : list TestRow)
    (selected_lifts : list string) (i : list string) :
  failed_indices ≠ [] →
  rows_at assessment_data failed_indices failed_rows →
  areas_present failed_rows →
  ∃ (sorted_areas : list (cell * nat)) (after : list event),
    out (generate_warmup_plan assessment_data failed_indices selected_lifts i)
      = customized_header
        ++ top_issues_header :: (issue_line <$> sorted_areas)
        ++ exercises_header :: after ∧
    NoDup sorted_areas.*1 ∧
    (∀ area n, (area, n) ∈ sorted_areas ↔
       area ∈ Area <$> failed_rows ∧ n = occurrences area (Area <$> failed_rows)) ∧
    StronglySorted (priority (Area <$> failed_rows)) sorted_areas ∧
    (Area <$> failed_rows
       = [Text "Hip Flexion"; Text "Lat Flexibility"; Text "Hip Flexion"] →
     sorted_areas = [(Text "Hip Flexion", 2); (Text "Lat Flexibility", 1)]).
Proof.
  intros Hne Hrows _.
  exists (sorted_desc (count_areas (Area <$> failed_rows))). eexists.
  rewrite (generate_warmup_plan_customized _ _ _ _ _ Hne Hrows). cbn [out].
  destruct (sorted_areas_spec (Area <$> failed_rows)) as (Hnodup & Hmem & Hsorted).
  split_and!; [|done|done|done|by intros ->].
  cbn [app]. reflexivity.
Qed.

(** C4. For a non-empty failure list, of rows whose area is present, the
    corrective-exercise section holds
    one block for each of the first five failed rows, or for all of them
    when they are fewer, in the order of the failure list, whatever the
    order of the top issues; seven failed rows give five blocks. *)
Theorem exercise_blocks_first_five
    (assessment_data : DataFrame) (failed_indices : list nat) (failed_rows : list TestRow)
    (selected_lifts : list string) (i : list string) :
  failed_indices ≠ [] →
  rows_at assessment_data failed_indices failed_rows →
  areas_present failed_rows →
  let notes := print_implementation_notes assessment_data failed_indices selected_lifts i in
  let shown_rows := take 5 failed_rows in
  out (generate_warmup_plan assessment_data failed_indices selected_lifts i)
    = customized_header
      ++ (top_issues_header
            :: (issue_line <$> sorted_desc (count_areas (Area <$> failed_rows))))
      ++ (exercises_header :: concat (exercise_block <$> shown_rows))
      ++ concat (standard_progression "3" <$> selected_lifts)
      ++ out notes ∧
  rows_at assessment_data (take 5 failed_indices) shown_rows ∧
  length (exercise_block <$> shown_rows) = 5 `min` length failed_indices ∧
  (length failed_indices = 7 → length (exercise_block <$> shown_rows) = 5) ∧
  (∀ row, exercise_block row = [
     Print (nl +:+ "-- " +:+ fmt (Area row) +:+ ": " +:+ fmt (Test row) +:+ " --");
     Print ("  1. " +:+ fmt (Solution_1 row));
     Print ("  2. " +:+ fmt (Solution_2 row));
     Print ("  3. " +:+ fmt (Solution_3 row)) ]).
Proof.
  intros Hne Hrows _ notes shown_rows. subst notes shown_rows.
  pose proof (Forall2_length _ _ _ Hrows) as Hlen.
  rewrite (generate_warmup_plan_customized _ _ _ _ _ Hne Hrows). cbn [out].
  assert (Hblocks : length (exercise_block <$> take 5 failed_rows)
                      = 5 `min` length failed_indices).
  { by rewrite length_fmap, length_take, Hlen. }
  split_and!; [done| |done| |done].
  - by apply Forall2_take.
  - intros H7. by rewrite Hblocks, H7.
Qed.

(** The tips of a lift are those of the failed rows that have a fourth
    solution and an area in the lift's list. *)
Lemma elem_of_tips_for lift tests failed_rows tip :
  LIFT_SPECIFIC_TESTS !! lift = Some tests →
  tip ∈ tips_for lift failed_rows ↔
  ∃ row, row ∈ failed_rows ∧ tip = tip_line row ∧
         notna (Solution_4 row) = true ∧ cell_in_list (Area row) tests = true.
Proof.
  intros Htests. unfold tips_for. rewrite Htests, list_elem_of_fmap. cbn [from_option id].
  split.
  - intros (row & -> & Hrow). apply list_elem_of_filter in Hrow as [[? ?] ?]. by exists row.
  - intros (row & Hrow & -> & ? & ?). exists row. split; [done|].
    by apply list_elem_of_filter.
Qed.

Lemma elem_of_lift_notes failed_rows lift tip :
  tip ∈ tips_for lift failed_rows → Print tip ∈ lift_notes failed_rows lift.
Proof.
  unfold lift_notes. destruct (tips_for lift failed_rows) as [|t tips].
  - by intros ?%elem_of_nil.
  - intros Hin. right. by apply list_elem_of_fmap_2.
Qed.

(** C5. In the customized plan, for failed rows whose area is present,
    the implementation notes are grouped by selected lift, in selection
    order. The tips of a lift are those of the
    failed rows that have a fourth solution and whose area is in the lift's
    list, so the tip of such a row stands under every selected lift that
    lists its area; a lift without tips has no section. *)
Theorem implementation_tips_by_lift
    (assessment_data : DataFrame) (failed_indices : list nat) (failed_rows : list TestRow)
    (selected_lifts : list string) (i : list string) :
  failed_indices ≠ [] →
  rows_at assessment_data failed_indices failed_rows →
  areas_present failed_rows →
  selected_lifts ⊆ ["squat"; "bench"; "deadlift"] →
  NoDup selected_lifts →
  generate_warmup_plan assessment_data failed_indices selected_lifts i
    = Result (customized_plan failed_rows selected_lifts) (Return ()) i ∧
  implementation_notes failed_rows selected_lifts
    = [ notes_header;
        Print ("For your " +:+ join ", " selected_lifts
               +:+ " today, consider these adjustments:") ]
      ++ concat (lift_notes failed_rows <$> selected_lifts) ∧
  (∀ lift tests, LIFT_SPECIFIC_TESTS !! lift = Some tests →
     tips_for lift failed_rows
       = tip_line <$> filter (λ row, notna (Solution_4 row) = true ∧
                                     cell_in_list (Area row) tests = true) failed_rows) ∧
  (∀ lift tests row,
     lift ∈ selected_lifts → LIFT_SPECIFIC_TESTS !! lift = Some tests →
     row ∈ failed_rows → notna (Solution_4 row) = true →
     cell_in_list (Area row) tests = true →
     Print (tip_line row) ∈ lift_notes failed_rows lift) ∧
  (∀ lift, lift_notes failed_rows lift
     = match tips_for lift failed_rows with
       | [] => []
       | tips => Print (nl +:+ "For " +:+ lift +:+ ":") :: (Print <$> tips)
       end).
Proof.
  intros Hne Hrows _ Hvalid Hnodup. split_and!; [|done| | |done].
  - by apply generate_warmup_plan_customized_full.
  - intros lift tests Htests. unfold tips_for. by rewrite Htests.
  - intros lift tests row _ Htests Hrow Hnotna Harea.
    apply elem_of_lift_notes, (elem_of_tips_for _ _ _ _ Htests). by exists row.
Qed.

(** The tables: no lift lists a fundamental area. *)
Lemma fundamental_not_lift_specific lift tests area :
  LIFT_SPECIFIC_TESTS !! lift = Some tests →
  area ∈ FUNDAMENTAL_TESTS → area ∉ tests.
Proof.
  intros Htests Harea.
  assert (Hlift : lift ∈ ["squat"; "bench"; "deadlift"]) by (by apply lift_is_key).
  unfold FUNDAMENTAL_TESTS in Harea.
  repeat (apply elem_of_cons in Hlift as [->|Hlift]); [| | |by apply elem_of_nil in Hlift];
    vm_compute in Htests; injection Htests as <-;
    repeat (apply elem_of_cons in Harea as [->|Harea]);
    try (by apply elem_of_nil in Harea);
    rewrite !elem_of_cons, elem_of_nil; intros Hin;
    repeat (destruct Hin as [Hin|Hin]; [discriminate|]); done.
Qed.

(** No tip of a lift reads as the tip of a fundamental area. *)
Lemma tip_line_not_fundamental lift tests row area advice :
  LIFT_SPECIFIC_TESTS !! lift = Some tests →
  cell_in_list (Area row) tests = true →
  area ∈ FUNDAMENTAL_TESTS →
  tip_line row ≠ "- " +:+ area +:+ ": " +:+ advice.
Proof.
  intros Htests Hin Harea. unfold tip_line.
  destruct (Area row) as [a|]; [|done]. cbn [cell_in_list fmt] in *.
  apply bool_decide_eq_true in Hin.
  assert (Hlift : lift ∈ ["squat"; "bench"; "deadlift"]) by (by apply lift_is_key).
  unfold FUNDAMENTAL_TESTS in Harea.
  repeat (apply elem_of_cons in Hlift as [->|Hlift]); [| | |by apply elem_of_nil in Hlift];
    vm_compute in Htests; injection Htests as <-;
    repeat (apply elem_of_cons in Harea as [->|Harea]);
    try (by apply elem_of_nil in Harea);
    repeat (apply elem_of_cons in Hin as [->|Hin]);
    try (by apply elem_of_nil in Hin);
    discriminate.
Qed.

(** C9. The tip of a failed row whose area is fundamental is never among
    the implementation notes, since no lift lists a fundamental area; and
    with no lift selected the notes consist of their two heading lines,
    whatever failed. As for all of the customized plan, the failed rows are
    taken to have an area. *)
Theorem fundamental_tips_never_printed
    (assessment_data : DataFrame) (failed_indices : list nat) (failed_rows : list TestRow)
    (selected_lifts : list string) (i : list string) :
  failed_indices ≠ [] →
  rows_at assessment_data failed_indices failed_rows →
  areas_present failed_rows →
  selected_lifts ⊆ ["squat"; "bench"; "deadlift"] →
  NoDup selected_lifts →
  (∀ lift tests area,
     LIFT_SPECIFIC_TESTS !! lift = Some tests → area ∈ FUNDAMENTAL_TESTS → area ∉ tests) ∧
  generate_warmup_plan assessment_data failed_indices selected_lifts i
    = Result (customized_plan failed_rows selected_lifts) (Return ()) i ∧
  (∀ area advice, area ∈ FUNDAMENTAL_TESTS →
     Print ("- " +:+ area +:+ ": " +:+ advice)
       ∉ implementation_notes failed_rows selected_lifts) ∧
  (selected_lifts = [] →
     implementation_notes failed_rows selected_lifts
       = [ notes_header; Print "For your  today, consider these adjustments:" ]).
Proof.
  intros Hne Hrows _ Hvalid Hnodup. split_and!.
  - apply fundamental_not_lift_specific.
  - by apply generate_warmup_plan_customized_full.
  - intros area advice Harea. unfold implementation_notes, notes_header.
    rewrite elem_of_app, !elem_of_cons, elem_of_nil.
    intros [[?|[?|[]]]|Hin]; [discriminate|discriminate|].
    apply list_elem_of_In in Hin. apply in_concat in Hin as (section & Hsection & Hin).
    apply list_elem_of_In in Hsection.
    apply list_elem_of_fmap in Hsection as (lift & -> & Hlift).
    apply list_elem_of_In in Hin. unfold lift_notes in Hin.
    destruct (proj1 (lift_is_key lift) (Hvalid lift Hlift)) as [tests Htests].
    assert (Hno : ∀ tip, tip ∈ tips_for lift failed_rows →
              tip ≠ "- " +:+ area +:+ ": " +:+ advice).
    { intros tip Htip.
      apply (elem_of_tips_for _ _ _ _ Htests) in Htip as (row & _ & -> & _ & Hrow).
      by apply (tip_line_not_fundamental _ _ _ _ _ Htests Hrow Harea). }
    destruct (tips_for lift failed_rows) as [|t tips];
      [by apply elem_of_nil in Hin|].
    apply elem_of_cons in Hin as [?|Hin]; [discriminate|].
    apply list_elem_of_fmap in Hin as (tip & Heq & Hin).
    injection Heq as Heq. by apply (Hno tip).
  - by intros ->.
Qed.

(** C10. A corrective-exercise block prints the first three solutions of
    its row as they are, a missing one as [nan]; the implementation notes
    take a fourth solution only where it is present, so the rows without
    one can be left out without changing the notes. The failed rows are
    taken to have an area. *)
Theorem solutions_presence
    (assessment_data : DataFrame) (failed_indices : list nat) (failed_rows : list TestRow)
    (selected_lifts : list string) (i : list string) :
  failed_indices ≠ [] →
  rows_at assessment_data failed_indices failed_rows →
  areas_present failed_rows →
  selected_lifts ⊆ ["squat"; "bench"; "deadlift"] →
  NoDup selected_lifts →
  generate_warmup_plan assessment_data failed_indices selected_lifts i
    = Result
        (customized_header
         ++ (top_issues_header
               :: (issue_line <$> sorted_desc (count_areas (Area <$> failed_rows))))
         ++ (exercises_header :: concat (exercise_block <$> take 5 failed_rows))
         ++ concat (standard_progression "3" <$> selected_lifts)
         ++ implementation_notes failed_rows selected_lifts)
        (Return ()) i ∧
  (∀ row, exercise_block row = [
     Print (nl +:+ "-- " +:+ fmt (Area row) +:+ ": " +:+ fmt (Test row) +:+ " --");
     Print ("  1. " +:+ fmt (Solution_1 row));
     Print ("  2. " +:+ fmt (Solution_2 row));
     Print ("  3. " +:+ fmt (Solution_3 row)) ]) ∧
  fmt NaN = "nan" ∧
  (∀ row, Solution_1 row = NaN → Print "  1. nan" ∈ exercise_block row) ∧
  (∀ row, Solution_2 row = NaN → Print "  2. nan" ∈ exercise_block row) ∧
  (∀ row, Solution_3 row = NaN → Print "  3. nan" ∈ exercise_block row) ∧
  implementation_notes failed_rows selected_lifts
    = implementation_notes
        (filter (λ row, notna (Solution_4 row) = true) failed_rows) selected_lifts.
Proof.
  intros Hne Hrows _ Hvalid Hnodup. split_and!; [|done|done| | | |].
  - by apply generate_warmup_plan_customized_full.
  - intros row Hs. unfold exercise_block. rewrite Hs. right; left.
  - intros row Hs. unfold exercise_block. rewrite Hs. right; right; left.
  - intros row Hs. unfold exercise_block. rewrite Hs. right; right; right; left.
  - unfold implementation_notes. f_equal. f_equal.
    apply list_fmap_ext. intros k lift _.
    assert (Htips : tips_for lift failed_rows
              = tips_for lift (filter (λ row, notna (Solution_4 row) = true) failed_rows)).
    { unfold tips_for. f_equal. rewrite list_filter_filter.
      apply list_filter_iff. intros row. tauto. }
    unfold lift_notes. by rewrite <-Htips.
Qed.

(** * The claims at concrete inputs *)

Lemma example_answers_well_formed : Forall well_formed example_answers.
Proof.
  unfold example_answers, well_formed, accepted.
  repeat (constructor; [split; [repeat (constructor; [solve_decidable|]); constructor
                               |solve_decidable]|]).
  constructor.
Defined.

(** The squat session on the example catalog: rows 0, 1, 2, 3, 5 and 7 are
    shown, and rows 0, 2 and 7 are reported as failed. *)
Example example_assessment :
  assessment_loop example_catalog example_relevant
      (typed_lines example_answers ++ ["unread"])
    = Result (concat (zip_with shown (relevant_rows example_relevant example_catalog)
                                     example_answers))
             (Return [0; 2; 7]) ["unread"]
  ∧ (relevant_rows example_relevant example_catalog).*1 = [0; 1; 2; 3; 5; 7].
Proof. split; vm_compute; reflexivity. Qed.

Lemma assessment_loop_spec_witness :
  length example_answers = length (relevant_rows example_relevant example_catalog) ∧
  Forall well_formed example_answers ∧
  assessment_loop example_catalog example_relevant
      (typed_lines example_answers ++ ["unread"])
    = Result
        (concat (zip_with shown (relevant_rows example_relevant example_catalog)
                                example_answers))
        (Return (reported_failed
                   (zip (relevant_rows example_relevant example_catalog) example_answers)))
        ["unread"].
Proof.
  assert (H1 : length example_answers
               = length (relevant_rows example_relevant example_catalog))
    by (vm_compute; reflexivity).
  split; [exact H1|]. split; [exact example_answers_well_formed|].
  exact (assessment_loop_spec example_catalog example_relevant example_answers
           ["unread"] H1 example_answers_well_formed).
Defined.

Lemma top_issues_by_count_then_encounter_witness :
  [0; 1; 2] ≠ [] ∧
  rows_at example_catalog [0; 1; 2] (take 3 example_catalog) ∧
  areas_present (take 3 example_catalog) ∧
  ∃ (sorted_areas : list (cell * nat)) (after : list event),
    out (generate_warmup_plan example_catalog [0; 1; 2] ["squat"] [])
      = customized_header
        ++ top_issues_header :: (issue_line <$> sorted_areas)
        ++ exercises_header :: after ∧
    NoDup sorted_areas.*1 ∧
    (∀ area n, (area, n) ∈ sorted_areas ↔
       area ∈ Area <$> take 3 example_catalog ∧
       n = occurrences area (Area <$> take 3 example_catalog)) ∧
    StronglySorted (priority (Area <$> take 3 example_catalog)) sorted_areas ∧
    (Area <$> take 3 example_catalog
       = [Text "Hip Flexion"; Text "Lat Flexibility"; Text "Hip Flexion"] →
     sorted_areas = [(Text "Hip Flexion", 2); (Text "Lat Flexibility", 1)]).
Proof.
  assert (H1 : [0; 1; 2] ≠ @nil nat) by discriminate.
  assert (H2 : rows_at example_catalog [0; 1; 2] (take 3 example_catalog))
    by solve_rows_at.
  assert (Hpresent : areas_present (take 3 example_catalog)) by (repeat constructor).
  split; [exact H1|]. split; [exact H2|]. split; [exact Hpresent|].
  exact (top_issues_by_count_then_encounter example_catalog [0; 1; 2]
           (take 3 example_catalog) ["squat"] [] H1 H2 Hpresent).
Defined.

Lemma exercise_blocks_first_five_witness :
  [0; 1; 2; 3; 4; 5; 6] ≠ [] ∧
  rows_at example_catalog [0; 1; 2; 3; 4; 5; 6] (take 7 example_catalog) ∧
  areas_present (take 7 example_catalog) ∧
  let notes :=
    print_implementation_notes example_catalog [0; 1; 2; 3; 4; 5; 6] ["bench"] [] in
  let shown_rows := take 5 (take 7 example_catalog) in
  out (generate_warmup_plan example_catalog [0; 1; 2; 3; 4; 5; 6] ["bench"] [])
    = customized_header
      ++ (top_issues_header
            :: (issue_line <$> sorted_desc (count_areas (Area <$> take 7 example_catalog))))
      ++ (exercises_header :: concat (exercise_block <$> shown_rows))
      ++ concat (standard_progression "3" <$> ["bench"])
      ++ out notes ∧
  rows_at example_catalog (take 5 [0; 1; 2; 3; 4; 5; 6]) shown_rows ∧
  length (exercise_block <$> shown_rows) = 5 `min` length [0; 1; 2; 3; 4; 5; 6] ∧
  (length [0; 1; 2; 3; 4; 5; 6] = 7 → length (exercise_block <$> shown_rows) = 5) ∧
  (∀ row, exercise_block row = [
     Print (nl +:+ "-- " +:+ fmt (Area row) +:+ ": " +:+ fmt (Test row) +:+ " --");
     Print ("  1. " +:+ fmt (Solution_1 row));
     Print ("  2. " +:+ fmt (Solution_2 row));
     Print ("  3. " +:+ fmt (Solution_3 row)) ]).
Proof.
  assert (H1 : [0; 1; 2; 3; 4; 5; 6] ≠ @nil nat) by discriminate.
  assert (H2 : rows_at example_catalog [0; 1; 2; 3; 4; 5; 6] (take 7 example_catalog))
    by solve_rows_at.
  assert (Hpresent : areas_present (take 7 example_catalog)) by (repeat constructor).
  split; [exact H1|]. split; [exact H2|]. split; [exact Hpresent|].
  exact (exercise_blocks_first_five example_catalog [0; 1; 2; 3; 4; 5; 6]
           (take 7 example_catalog) ["bench"] [] H1 H2 Hpresent).
Defined.

(** Failures at rows 0, 1, 3 and 6 in a squat and deadlift session: the
    Hip Flexion tip stands under both lifts, the Wrist Mobility tip under
    the deadlift only; row 1 has no fourth solution and row 3 is a
    fundamental area, so neither gives a tip. Row 1 and row 6 have no
    second solution. *)
Example example_customized_plan :
  generate_warmup_plan example_catalog [0; 1; 3; 6] ["squat"; "deadlift"] ["unread"]
    = Result
        (customized_header
         ++ [ top_issues_header;
              Print "- Hip Flexion"; Print "- Lat Flexibility";
              Print "- CNS Fatigue"; Print "- Wrist Mobility";
              exercises_header;
              Print (nl +:+ "-- Hip Flexion: Knee to chest --");
              Print "  1. Foam roll"; Print "  2. Couch stretch"; Print "  3. Banded stretch";
              Print (nl +:+ "-- Lat Flexibility: Wall slide --");
              Print "  1. Foam roll"; Print "  2. nan"; Print "  3. Banded stretch";
              Print (nl +:+ "-- CNS Fatigue: Grip test --");
              Print "  1. Foam roll"; Print "  2. Rest"; Print "  3. Banded stretch";
              Print (nl +:+ "-- Wrist Mobility: Prayer stretch --");
              Print "  1. Foam roll"; Print "  2. nan"; Print "  3. Banded stretch" ]
         ++ standard_progression "3" "squat"
         ++ standard_progression "3" "deadlift"
         ++ [ notes_header;
              Print "For your squat, deadlift today, consider these adjustments:";
              Print (nl +:+ "For squat:");
              Print "- Hip Flexion: Widen the stance";
              Print (nl +:+ "For deadlift:");
              Print "- Hip Flexion: Widen the stance";
              Print "- Wrist Mobility: Use wrist wraps" ])
        (Return ()) ["unread"].
Proof. vm_compute. reflexivity. Qed.

Lemma implementation_tips_by_lift_witness :
  [0; 1; 3; 6] ≠ [] ∧
  rows_at example_catalog [0; 1; 3; 6] (rows_of example_catalog [0; 1; 3; 6]) ∧
  areas_present (rows_of example_catalog [0; 1; 3; 6]) ∧
  ["squat"; "deadlift"] ⊆ ["squat"; "bench"; "deadlift"] ∧
  NoDup ["squat"; "deadlift"] ∧
  generate_warmup_plan example_catalog [0; 1; 3; 6] ["squat"; "deadlift"] []
    = Result (customized_plan (rows_of example_catalog [0; 1; 3; 6]) ["squat"; "deadlift"]) (Return ()) [] ∧
  implementation_notes (rows_of example_catalog [0; 1; 3; 6]) ["squat"; "deadlift"]
    = [ notes_header;
        Print ("For your " +:+ join ", " ["squat"; "deadlift"]
               +:+ " today, consider these adjustments:") ]
      ++ concat (lift_notes (rows_of example_catalog [0; 1; 3; 6]) <$> ["squat"; "deadlift"]) ∧
  (∀ lift tests, LIFT_SPECIFIC_TESTS !! lift = Some tests →
     tips_for lift (rows_of example_catalog [0; 1; 3; 6])
       = tip_line <$> filter (λ row, notna (Solution_4 row) = true ∧
                                     cell_in_list (Area row) tests = true)
                             (rows_of example_catalog [0; 1; 3; 6])) ∧
  (∀ lift tests row,
     lift ∈ ["squat"; "deadlift"] → LIFT_SPECIFIC_TESTS !! lift = Some tests →
     row ∈ rows_of example_catalog [0; 1; 3; 6] → notna (Solution_4 row) = true →
     cell_in_list (Area row) tests = true →
     Print (tip_line row) ∈ lift_notes (rows_of example_catalog [0; 1; 3; 6]) lift) ∧
  (∀ lift, lift_notes (rows_of example_catalog [0; 1; 3; 6]) lift
     = match tips_for lift (rows_of example_catalog [0; 1; 3; 6]) with
       | [] => []
       | tips => Print (nl +:+ "For " +:+ lift +:+ ":") :: (Print <$> tips)
       end).
Proof.
  assert (H1 : [0; 1; 3; 6] ≠ @nil nat) by discriminate.
  assert (H2 : rows_at example_catalog [0; 1; 3; 6] (rows_of example_catalog [0; 1; 3; 6]))
    by solve_rows_at.
  assert (H3 : ["squat"; "deadlift"] ⊆ ["squat"; "bench"; "deadlift"])
    by solve_selection.
  assert (H4 : NoDup ["squat"; "deadlift"]) by solve_decidable.
  assert (Hpresent : areas_present (rows_of example_catalog [0; 1; 3; 6])) by (repeat constructor).
  split; [exact H1|]. split; [exact H2|]. split; [exact Hpresent|]. split; [exact H3|]. split; [exact H4|].
  exact (implementation_tips_by_lift example_catalog [0; 1; 3; 6] (rows_of example_catalog [0; 1; 3; 6])
           ["squat"; "deadlift"] [] H1 H2 Hpresent H3 H4).
Defined.

Lemma fundamental_tips_never_printed_witness :
  [0; 1; 3; 6] ≠ [] ∧
  rows_at example_catalog [0; 1; 3; 6] (rows_of example_catalog [0; 1; 3; 6]) ∧
  areas_present (rows_of example_catalog [0; 1; 3; 6]) ∧
  ["squat"; "deadlift"] ⊆ ["squat"; "bench"; "deadlift"] ∧
  NoDup ["squat"; "deadlift"] ∧
  (∀ lift tests area,
     LIFT_SPECIFIC_TESTS !! lift = Some tests → area ∈ FUNDAMENTAL_TESTS → area ∉ tests) ∧
  generate_warmup_plan example_catalog [0; 1; 3; 6] ["squat"; "deadlift"] []
    = Result (customized_plan (rows_of example_catalog [0; 1; 3; 6]) ["squat"; "deadlift"]) (Return ()) [] ∧
  (∀ area advice, area ∈ FUNDAMENTAL_TESTS →
     Print ("- " +:+ area +:+ ": " +:+ advice)
       ∉ implementation_notes (rows_of example_catalog [0; 1; 3; 6]) ["squat"; "deadlift"]) ∧
  (["squat"; "deadlift"] = [] →
     implementation_notes (rows_of example_catalog [0; 1; 3; 6]) ["squat"; "deadlift"]
       = [ notes_header; Print "For your  today, consider these adjustments:" ]).
Proof.
  assert (H1 : [0; 1; 3; 6] ≠ @nil nat) by discriminate.
  assert (H2 : rows_at example_catalog [0; 1; 3; 6] (rows_of example_catalog [0; 1; 3; 6]))
    by solve_rows_at.
  assert (H3 : ["squat"; "deadlift"] ⊆ ["squat"; "bench"; "deadlift"])
    by solve_selection.
  assert (H4 : NoDup ["squat"; "deadlift"]) by solve_decidable.
  assert (Hpresent : areas_present (rows_of example_catalog [0; 1; 3; 6])) by (repeat constructor).
  split; [exact H1|]. split; [exact H2|]. split; [exact Hpresent|]. split; [exact H3|]. split; [exact H4|].
  exact (fundamental_tips_never_printed example_catalog [0; 1; 3; 6] (rows_of example_catalog [0; 1; 3; 6])
           ["squat"; "deadlift"] [] H1 H2 Hpresent H3 H4).
Defined.

Lemma solutions_presence_witness :
  [0; 1; 3; 6] ≠ [] ∧
  rows_at example_catalog [0; 1; 3; 6] (rows_of example_catalog [0; 1; 3; 6]) ∧
  areas_present (rows_of example_catalog [0; 1; 3; 6]) ∧
  ["squat"; "deadlift"] ⊆ ["squat"; "bench"; "deadlift"] ∧
  NoDup ["squat"; "deadlift"] ∧
  generate_warmup_plan example_catalog [0; 1; 3; 6] ["squat"; "deadlift"] []
    = Result
        (customized_header
         ++ (top_issues_header
               :: (issue_line <$> sorted_desc (count_areas (Area <$> (rows_of example_catalog [0; 1; 3; 6])))))
         ++ (exercises_header :: concat (exercise_block <$> take 5 (rows_of example_catalog [0; 1; 3; 6])))
         ++ concat (standard_progression "3" <$> ["squat"; "deadlift"])
         ++ implementation_notes (rows_of example_catalog [0; 1; 3; 6]) ["squat"; "deadlift"])
        (Return ()) [] ∧
  (∀ row, exercise_block row = [
     Print (nl +:+ "-- " +:+ fmt (Area row) +:+ ": " +:+ fmt (Test row) +:+ " --");
     Print ("  1. " +:+ fmt (Solution_1 row));
     Print ("  2. " +:+ fmt (Solution_2 row));
     Print ("  3. " +:+ fmt (Solution_3 row)) ]) ∧
  fmt NaN = "nan" ∧
  (∀ row, Solution_1 row = NaN → Print "  1. nan" ∈ exercise_block row) ∧
  (∀ row, Solution_2 row = NaN → Print "  2. nan" ∈ exercise_block row) ∧
  (∀ row, Solution_3 row = NaN → Print "  3. nan" ∈ exercise_block row) ∧
  implementation_notes (rows_of example_catalog [0; 1; 3; 6]) ["squat"; "deadlift"]
    = implementation_notes
        (filter (λ row, notna (Solution_4 row) = true) (rows_of example_catalog [0; 1; 3; 6])) ["squat"; "deadlift"].
Proof.
  assert (H1 : [0; 1; 3; 6] ≠ @nil nat) by discriminate.
  assert (H2 : rows_at example_catalog [0; 1; 3; 6] (rows_of example_catalog [0; 1; 3; 6]))
    by solve_rows_at.
  assert (H3 : ["squat"; "deadlift"] ⊆ ["squat"; "bench"; "deadlift"])
    by solve_selection.
  assert (H4 : NoDup ["squat"; "deadlift"]) by solve_decidable.
  assert (Hpresent : areas_present (rows_of example_catalog [0; 1; 3; 6])) by (repeat constructor).
  split; [exact H1|]. split; [exact H2|]. split; [exact Hpresent|]. split; [exact H3|]. split; [exact H4|].
  exact (solutions_presence example_catalog [0; 1; 3; 6] (rows_of example_catalog [0; 1; 3; 6])
           ["squat"; "deadlift"] [] H1 H2 Hpresent H3 H4).
Defined.

(** * Further properties: the selection and the relevant areas *)

Lemma lower_ascii_y (c : ascii) :
  lower_ascii c = "y"%char ↔ c = "y"%char ∨ c = "Y"%char.
Proof.
  split; [|by intros [->| ->]].
  destruct c as [[] [] [] [] [] [] [] []]; vm_compute; intros H;
    first [discriminate H | by left | by right].
Qed.

Lemma lower_cons (c : ascii) (s : string) :
  lower (String c s)
    = match s with
      | String c1 (String c2 s'') =>
          if bool_decide (c = ascii_of_nat 226 ∧ c1 = ascii_of_nat 132
                          ∧ c2 = ascii_of_nat 170)
          then String (ascii_of_nat 107) (lower s'')
          else String (lower_ascii c) (lower s)
      | _ => String (lower_ascii c) (lower s)
      end.
Proof. by destruct s as [|c1 [|c2 s]]. Qed.

Lemma lower_nonempty (c : ascii) (s : string) : lower (String c s) ≠ EmptyString.
Proof.
  rewrite lower_cons. destruct s as [|c1 [|c2 s]]; try discriminate.
  by destruct (bool_decide _).
Qed.

Lemma lower_y (line : string) : lower line = "y" ↔ line = "y" ∨ line = "Y".
Proof.
  split; [|by intros [->| ->]].
  destruct line as [|c [|c1 [|c2 line]]]; [done| |done|].
  - cbn [lower]. intros [= Hc]. apply lower_ascii_y in Hc as [->| ->]; [by left|by right].
  - rewrite lower_cons. destruct (bool_decide _); intros Heq.
    + injection Heq as Hk _. vm_compute in Hk. discriminate Hk.
    + injection Heq as _ Hrest. destruct (lower_nonempty c1 (String c2 line) Hrest).
Qed.

Lemma select_lifts_run (squat bench deadlift : string) (more : list string) :
  select_lifts (squat :: bench :: deadlift :: more)
    = Result (selection_header ++ selection_prompts)
             (Return (chosen_lifts squat bench deadlift)) more.
Proof.
  unfold select_lifts, chosen_lifts.
  cbv [mbind io_mbind io_bind print input mret io_mret io_ret out res rest].
  destruct (bool_decide (lower squat = "y")), (bool_decide (lower bench = "y")),
    (bool_decide (lower deadlift = "y")); reflexivity.
Qed.

Lemma chosen_lifts_selection (squat bench deadlift : string) :
  chosen_lifts squat bench deadlift `sublist_of` ["squat"; "bench"; "deadlift"].
Proof.
  unfold chosen_lifts.
  destruct (bool_decide (lower squat = "y")), (bool_decide (lower bench = "y")),
    (bool_decide (lower deadlift = "y")); cbn [app]; repeat constructor.
Qed.

(** X1. Given three lines, [select_lifts] prints its heading and the three
    prompts, reads exactly those lines, and returns the lifts answered
    with y or Y, and no other, in the order squat, bench, deadlift. *)
Theorem select_lifts_reads_three (squat bench deadlift : string) (more : list string) :
  ∃ lifts,
    select_lifts (squat :: bench :: deadlift :: more)
      = Result (selection_header ++ selection_prompts) (Return lifts) more ∧
    lifts `sublist_of` ["squat"; "bench"; "deadlift"] ∧
    ("squat" ∈ lifts ↔ squat = "y" ∨ squat = "Y") ∧
    ("bench" ∈ lifts ↔ bench = "y" ∨ bench = "Y") ∧
    ("deadlift" ∈ lifts ↔ deadlift = "y" ∨ deadlift = "Y").
Proof.
  exists (chosen_lifts squat bench deadlift).
  split; [apply select_lifts_run|]. split; [apply chosen_lifts_selection|].
  rewrite <-!lower_y. unfold chosen_lifts.
  destruct (bool_decide_reflect (lower squat = "y")),
    (bool_decide_reflect (lower bench = "y")),
    (bool_decide_reflect (lower deadlift = "y")); cbn [app];
    rewrite ?elem_of_cons, ?elem_of_nil; split_and!; split;
    first [done | by intros [?|[?|[]]] | by intros [?|[]] | by intros []
          | by left | by right; left | by right; right; left | idtac ].
Qed.

(** X2. On a loaded catalog, with fewer than three lines of input the run
    ends in [EOFError] within the selection: after the heading it has
    written one prompt more than there were lines, and nothing else. *)
Theorem run_assessment_eof_in_selection (assessment_data : DataFrame) (i : list string) :
  length i < 3 →
  run_assessment (Loaded assessment_data) i
    = Result (selection_header ++ take (S (length i)) selection_prompts)
             (Raise EOFError) [].
Proof.
  destruct i as [|a [|b [|c i]]]; [done..|]. cbn [length]. lia.
Qed.

Lemma run_assessment_eof_in_selection_witness :
  length ["y"; "n"] < 3 ∧
  run_assessment (Loaded example_catalog) ["y"; "n"]
    = Result (selection_header ++ take (S (length ["y"; "n"])) selection_prompts)
             (Raise EOFError) [].
Proof.
  assert (H : length ["y"; "n"] < 3) by (cbn; lia).
  split; [exact H|]. exact (run_assessment_eof_in_selection example_catalog _ H).
Defined.

Lemma get_relevant_tests_loop_unknown known lift others :
  Forall (λ l, is_Some (LIFT_SPECIFIC_TESTS !! l)) known →
  LIFT_SPECIFIC_TESTS !! lift = None →
  ∀ relevant_areas,
    get_relevant_tests_loop (known ++ lift :: others) relevant_areas = Raise (KeyError lift).
Proof.
  intros Hknown Hlift. induction Hknown as [|l known [tests Htests] _ IH]; intros S; cbn.
  - by rewrite Hlift.
  - by rewrite Htests.
Qed.

(** X3. A lift name that is not a key of [LIFT_SPECIFIC_TESTS] makes
    [get_relevant_tests] raise [KeyError] for the first such name, whatever
    follows it. *)
Theorem get_relevant_tests_unknown_lift (known : list string) (lift : string)
    (others : list string) :
  known ⊆ ["squat"; "bench"; "deadlift"] →
  lift ∉ ["squat"; "bench"; "deadlift"] →
  get_relevant_tests (known ++ lift :: others) = Raise (KeyError lift).
Proof.
  intros Hknown Hlift. apply get_relevant_tests_loop_unknown.
  - by apply valid_selection.
  - apply eq_None_not_Some. by rewrite <-lift_is_key.
Qed.

Lemma get_relevant_tests_unknown_lift_witness :
  ["bench"] ⊆ ["squat"; "bench"; "deadlift"] ∧
  ("press" ∉ ["squat"; "bench"; "deadlift"]) ∧
  get_relevant_tests (["bench"] ++ "press" :: ["squat"]) = Raise (KeyError "press").
Proof.
  assert (H1 : ["bench"] ⊆ ["squat"; "bench"; "deadlift"]) by solve_selection.
  assert (H2 : "press" ∉ ["squat"; "bench"; "deadlift"]) by solve_decidable.
  split; [exact H1|]. split; [exact H2|].
  exact (get_relevant_tests_unknown_lift ["bench"] "press" ["squat"] H1 H2).
Defined.

(** X4. Selecting more lifts never removes an area: a selection within a
    larger one resolves to a subset of the larger one's areas. The number
    of relevant areas lies between 3 and 19. *)
Theorem get_relevant_tests_monotone (lifts1 lifts2 : list string) :
  lifts1 ⊆ lifts2 →
  lifts2 ⊆ ["squat"; "bench"; "deadlift"] →
  ∃ areas1 areas2 : gset string,
    get_relevant_tests lifts1 = Return areas1 ∧
    get_relevant_tests lifts2 = Return areas2 ∧
    areas1 ⊆ areas2 ∧ 3 ≤ size areas1 ∧ size areas2 ≤ 19.
Proof.
  intros Hsub Hvalid. unfold get_relevant_tests.
  destruct (get_relevant_tests_loop_spec lifts1 (list_to_set FUNDAMENTAL_TESTS))
    as (R1 & HR1 & Hmem1).
  { apply valid_selection. intros l Hl. by apply Hvalid, Hsub. }
  destruct (get_relevant_tests_loop_spec lifts2 (list_to_set FUNDAMENTAL_TESTS))
    as (R2 & HR2 & Hmem2); [by apply valid_selection|].
  destruct (get_relevant_tests_loop_spec ["squat"; "bench"; "deadlift"]
              (list_to_set FUNDAMENTAL_TESTS)) as (R3 & HR3 & Hmem3);
    [by apply valid_selection|].
  exists R1, R2. split_and!; [done|done| | |].
  - intros area. rewrite Hmem1, Hmem2.
    intros [?|(l & ts & Hl & Hts & Ha)]; [by left|].
    right. exists l, ts. split_and!; [by apply Hsub|done|done].
  - assert (Hfund : list_to_set FUNDAMENTAL_TESTS ⊆ R1).
    { intros area Ha. apply Hmem1. by left. }
    apply subseteq_size in Hfund.
    assert (Hsize : size (list_to_set FUNDAMENTAL_TESTS : gset string) = 3)
      by (vm_compute; reflexivity).
    lia.
  - assert (Hall : R2 ⊆ R3).
    { intros area. rewrite Hmem2, Hmem3.
      intros [?|(l & ts & Hl & Hts & Ha)]; [by left|].
      right. exists l, ts. split_and!; [by apply Hvalid|done|done]. }
    apply subseteq_size in Hall.
    assert (Hsize : size R3 = 19).
    { assert (HR : Return R3 = get_relevant_tests ["squat"; "bench"; "deadlift"])
        by (by rewrite <-HR3).
      vm_compute in HR. injection HR as ->. vm_compute. reflexivity. }
    lia.
Qed.

Lemma get_relevant_tests_monotone_witness :
  ["bench"] ⊆ ["squat"; "bench"] ∧
  ["squat"; "bench"] ⊆ ["squat"; "bench"; "deadlift"] ∧
  ∃ areas1 areas2 : gset string,
    get_relevant_tests ["bench"] = Return areas1 ∧
    get_relevant_tests ["squat"; "bench"] = Return areas2 ∧
    areas1 ⊆ areas2 ∧ 3 ≤ size areas1 ∧ size areas2 ≤ 19.
Proof.
  assert (H1 : ["bench"] ⊆ ["squat"; "bench"]) by solve_selection.
  assert (H2 : ["squat"; "bench"] ⊆ ["squat"; "bench"; "deadlift"]) by solve_selection.
  split; [exact H1|]. split; [exact H2|].
  exact (get_relevant_tests_monotone ["bench"] ["squat"; "bench"] H1 H2).
Defined.

(** * Further properties: the assessment loop on any input *)

Lemma bind_result {A B} (m : io A) (f : A → io B) (i : list string) :
  (m ≫= f) i
    = match res (m i) with
      | Return a =>
          Result (out (m i) ++ out (f a (rest (m i))))
                 (res (f a (rest (m i)))) (rest (f a (rest (m i))))
      | Raise e => Result (out (m i)) (Raise e) (rest (m i))
      end.
Proof. unfold mbind, io_mbind, io_bind. by destruct (res (m i)). Qed.

Lemma ask_response_outcome (i : list string) :
  (∃ rejected_lines final_line more,
     i = rejected_lines ++ final_line :: more ∧
     Forall (λ line, ¬ accepted line) rejected_lines ∧ accepted final_line ∧
     ask_response i
       = Result (reprompts rejected_lines ++ [Prompt question])
                (Return (lower final_line)) more)
  ∨ (Forall (λ line, ¬ accepted line) i ∧
     ask_response i = Result (reprompts i ++ [Prompt question]) (Raise EOFError) []).
Proof.
  induction i as [|line i IH].
  - right. by split.
  - cbn [ask_response]. destruct (bool_decide_reflect (lower line ∈ ["y"; "n"; "skip"]))
      as [Hacc|Hrej].
    + left. exists [], line, i. by split_and!.
    + destruct IH as [(rej & fin & more & -> & Hrej' & Hfin & ->)|[Hrej' ->]].
      * left. exists (line :: rej), fin, more. split_and!; [done|by constructor|done|done].
      * right. split; [by constructor|done].
Qed.

(** X5. The prompt loop of one test, on any input: it complains about
    every line up to the first accepted one, that is the first whose lower
    case is y, n or skip, and returns that line in lower case, having read
    no further; if no line is accepted it has read and
    complained about all of them and ends in [EOFError]. It gives up in no
    other way. *)
Theorem ask_response_first_accepted (i : list string) :
  (∃ rejected_lines final_line more,
     i = rejected_lines ++ final_line :: more ∧
     Forall (λ line, ¬ accepted line) rejected_lines ∧ accepted final_line ∧
     ask_response i
       = Result (reprompts rejected_lines ++ [Prompt question])
                (Return (lower final_line)) more)
  ∨ (Forall (λ line, ¬ accepted line) i ∧
     ask_response i = Result (reprompts i ++ [Prompt question]) (Raise EOFError) []).
Proof. apply ask_response_outcome. Qed.

(** One relevant row on any input. *)
Lemma assess_row_result relevant_areas failed_tests index row (i : list string) :
  cell_in_set (Area row) relevant_areas = true →
  assess_row relevant_areas failed_tests (index, row) i
    = Result (presented (index, row) ++ out (ask_response i))
             (match res (ask_response i) with
              | Return response =>
                  Return (if bool_decide (response = "y")
                          then failed_tests ++ [index] else failed_tests)
              | Raise e => Raise e
              end)
             (rest (ask_response i)).
Proof.
  intros Hrel. unfold assess_row. rewrite Hrel. cbn [negb].
  do 3 (rewrite (bind_emits _ _ _ _ _ (emits_print _)); cbn [out res rest app]).
  rewrite bind_result. unfold presented. cbn [snd app].
  destruct (res (ask_response i)) as [response|e]; [|done].
  destruct (bool_decide (response = "y"));
    cbn [out res rest mret io_mret io_ret]; by rewrite app_nil_r.
Qed.

(** The loop over any rows on any input: it returns the failures it was
    given followed by a selection, in order, of the indices of the relevant
    rows, or it ends in [EOFError]. *)
Lemma assess_rows_outcome relevant_areas (entries : list (nat * TestRow)) :
  ∀ (failed_tests : list nat) (i : list string),
  res (for_fold entries (assess_row relevant_areas) failed_tests i) = Raise EOFError
  ∨ ∃ reported,
      res (for_fold entries (assess_row relevant_areas) failed_tests i)
        = Return (failed_tests ++ reported) ∧
      reported `sublist_of`
        (filter (λ entry, cell_in_set (Area entry.2) relevant_areas = true) entries).*1.
Proof.
  induction entries as [|[index row] entries IH]; intros failed i.
  - right. exists []. by rewrite app_nil_r.
  - cbn [for_fold]. rewrite filter_cons. cbn [snd].
    destruct (cell_in_set (Area row) relevant_areas) eqn:Hrel.
    + rewrite decide_True by done. rewrite bind_result, assess_row_result by done.
      cbn [out res rest].
      destruct (ask_response_outcome i)
        as [(rej & fin & more & -> & _ & _ & ->)|[_ ->]]; cbn [out res rest]; [|by left].
      destruct (bool_decide (lower fin = "y")).
      * destruct (IH (failed ++ [index]) more) as [->|(reported & -> & Hsub)]; [by left|].
        right. exists (index :: reported). rewrite <-app_assoc. split; [done|].
        cbn [fmap list_fmap fst]. by constructor.
      * destruct (IH failed more) as [->|(reported & -> & Hsub)]; [by left|].
        right. exists reported. split; [done|].
        cbn [fmap list_fmap fst]. by constructor.
    + rewrite decide_False by done.
      rewrite (bind_emits _ _ _ _ _ (assess_row_skipped _ failed index row Hrel)).
      cbn [out res rest]. apply IH.
Qed.

Lemma iterrows_indices_from (rows : list TestRow) (start : nat) :
  StronglySorted (λ x y : nat * TestRow, x.1 < y.1)
    (imap (λ index row, (start + index, row)) rows) ∧
  Forall (λ x : nat * TestRow, start ≤ x.1)
    (imap (λ index row, (start + index, row)) rows).
Proof.
  revert start. induction rows as [|row rows IH]; intros start; [by split; constructor|].
  cbn [imap]. destruct (IH (S start)) as [Hsorted Hfrom].
  assert (Heq : imap ((λ index row, (start + index, row)) ∘ S) rows
                = imap (λ index row, (S start + index, row)) rows).
  { apply imap_ext. intros k x _. cbn. f_equal. lia. }
  rewrite Heq. split.
  - constructor; [done|]. eapply Forall_impl; [exact Hfrom|]. cbn. intros x ?. lia.
  - constructor; [cbn; lia|]. eapply Forall_impl; [exact Hfrom|]. cbn. intros x ?. lia.
Qed.

Lemma StronglySorted_sublist {A} (R : relation A) (l k : list A) :
  l `sublist_of` k → StronglySorted R k → StronglySorted R l.
Proof.
  induction 1 as [|x l k Hsub IH|x l k Hsub IH]; intros Hsorted; [done| |].
  - apply StronglySorted_cons in Hsorted as [Hx Hsorted].
    constructor; [by apply IH|].
    apply Forall_forall. intros y Hy. apply (proj1 (Forall_forall _ _) Hx).
    by eapply elem_of_sublist.
  - apply StronglySorted_cons in Hsorted as [_ Hsorted]. by apply IH.
Qed.

(** The indices of the relevant rows go up strictly. *)
Lemma relevant_rows_increasing relevant_areas (assessment_data : DataFrame) :
  StronglySorted lt (relevant_rows relevant_areas assessment_data).*1.
Proof.
  unfold relevant_rows, iterrows.
  apply (StronglySorted_fmap _ (λ x y : nat * TestRow, x.1 < y.1)); [done|].
  eapply StronglySorted_sublist; [apply sublist_filter|].
  apply (iterrows_indices_from assessment_data 0).
Qed.

Lemma relevant_rows_in_catalog relevant_areas (assessment_data : DataFrame) index :
  index ∈ (relevant_rows relevant_areas assessment_data).*1 →
  ∃ row, assessment_data !! index = Some row ∧
         cell_in_set (Area row) relevant_areas = true.
Proof.
  intros ([idx row] & -> & Hin)%list_elem_of_fmap. cbn.
  apply list_elem_of_filter in Hin as [Hrel Hin]. cbn in Hrel.
  apply list_elem_of_lookup in Hin as [k Hk].
  apply iterrows_lookup in Hk as [-> Hk]. by exists row.
Qed.

(** X6. Whatever the input, the failures the assessment loop returns are
    indices of relevant catalog rows, in strictly increasing order, so
    without repetition. *)
Theorem assessment_loop_indices (assessment_data : DataFrame)
    (relevant_areas : gset string) (i : list string) (failed_tests : list nat) :
  res (assessment_loop assessment_data relevant_areas i) = Return failed_tests →
  failed_tests `sublist_of` (relevant_rows relevant_areas assessment_data).*1 ∧
  StronglySorted lt failed_tests ∧
  Forall (λ index, ∃ row, assessment_data !! index = Some row ∧
                          cell_in_set (Area row) relevant_areas = true) failed_tests.
Proof.
  unfold assessment_loop. intros Hres.
  destruct (assess_rows_outcome relevant_areas (iterrows assessment_data) [] i)
    as [Heof|(reported & Hrep & Hsub)]; [congruence|].
  rewrite Hres in Hrep. injection Hrep as ->. cbn [app]. split_and!; [done| |].
  - eapply StronglySorted_sublist; [done|apply relevant_rows_increasing].
  - apply Forall_forall. intros index Hin. apply relevant_rows_in_catalog.
    by eapply elem_of_sublist.
Qed.

Lemma assessment_loop_indices_witness :
  res (assessment_loop example_catalog example_relevant ["Y"; "skip"; "y"; "n"; "?"; "y"; "y"])
    = Return [0; 2; 5; 7] ∧
  [0; 2; 5; 7] `sublist_of` (relevant_rows example_relevant example_catalog).*1 ∧
  StronglySorted lt [0; 2; 5; 7] ∧
  Forall (λ index, ∃ row, example_catalog !! index = Some row ∧
                          cell_in_set (Area row) example_relevant = true) [0; 2; 5; 7].
Proof.
  assert (H : res (assessment_loop example_catalog example_relevant
                     ["Y"; "skip"; "y"; "n"; "?"; "y"; "y"]) = Return [0; 2; 5; 7])
    by (vm_compute; reflexivity).
  split; [exact H|].
  exact (assessment_loop_indices example_catalog example_relevant _ _ H).
Defined.

Lemma ask_response_eof (junk : list string) :
  Forall (λ line, ¬ accepted line) junk →
  ask_response junk = Result (reprompts junk ++ [Prompt question]) (Raise EOFError) [].
Proof.
  induction 1 as [|line junk Hline _ IH]; [done|].
  cbn [ask_response]. unfold accepted in Hline.
  rewrite bool_decide_eq_false_2 by done. by rewrite IH.
Qed.

Lemma assess_rows_eof relevant_areas (entries : list (nat * TestRow)) :
  ∀ (failed_tests : list nat) (answers : list answer) (junk : list string)
    (entry : nat * TestRow),
  let shown_entries :=
    filter (λ entry, cell_in_set (Area entry.2) relevant_areas = true) entries in
  Forall well_formed answers →
  shown_entries !! length answers = Some entry →
  Forall (λ line, ¬ accepted line) junk →
  for_fold entries (assess_row relevant_areas) failed_tests (typed_lines answers ++ junk)
    = Result (concat (zip_with shown shown_entries answers)
              ++ presented entry ++ reprompts junk ++ [Prompt question])
             (Raise EOFError) [].
Proof.
  induction entries as [|[index row] entries IH]; intros failed answers junk entry;
    cbn zeta; [done|].
  rewrite filter_cons. cbn [snd].
  destruct (cell_in_set (Area row) relevant_areas) eqn:Hrel.
  - rewrite decide_True by done. intros Hwf Hentry Hjunk. cbn [for_fold].
    destruct answers as [|a answers].
    + injection Hentry as <-. cbn [typed_lines fmap list_fmap concat app zip_with].
      rewrite bind_result, assess_row_result, ask_response_eof by done.
      by cbn [out res rest].
    + apply Forall_cons in Hwf as [Ha Hwf]. cbn [length lookup list_lookup] in Hentry.
      unfold typed_lines. cbn [fmap list_fmap concat].
      rewrite <-!app_assoc. cbn [app].
      rewrite (bind_run _ _ _ _ _ _
                 (assess_row_shown relevant_areas failed index row a _ Hrel Ha)).
      fold (typed_lines answers). rewrite (IH _ _ _ _ Hwf Hentry Hjunk).
      cbn [out res rest zip_with concat]. by rewrite <-app_assoc.
  - rewrite decide_False by done. intros Hwf Hentry Hjunk. cbn [for_fold].
    rewrite (bind_emits _ _ _ _ _ (assess_row_skipped _ failed index row Hrel)).
    cbn [app]. by rewrite (IH _ _ _ _ Hwf Hentry Hjunk).
Qed.

(** X7. When the input ends while a test is still open, that is after
    complete answers to some of the relevant rows and then only lines that
    are not accepted, the loop ends in [EOFError]: it has shown the
    answered rows, presented the open one, complained about every
    remaining line, and returns no failure list. *)
Theorem assessment_loop_eof (assessment_data : DataFrame) (relevant_areas : gset string)
    (answers : list answer) (junk : list string) (entry : nat * TestRow) :
  Forall well_formed answers →
  relevant_rows relevant_areas assessment_data !! length answers = Some entry →
  Forall (λ line, ¬ accepted line) junk →
  assessment_loop assessment_data relevant_areas (typed_lines answers ++ junk)
    = Result
        (concat (zip_with shown (relevant_rows relevant_areas assessment_data) answers)
         ++ presented entry ++ reprompts junk ++ [Prompt question])
        (Raise EOFError) [].
Proof.
  intros Hwf Hentry Hjunk. unfold assessment_loop.
  by rewrite (assess_rows_eof relevant_areas (iterrows assessment_data) []
                answers junk entry Hwf Hentry Hjunk).
Qed.

Lemma assessment_loop_eof_witness :
  Forall well_formed (take 2 example_answers) ∧
  relevant_rows example_relevant example_catalog !! length (take 2 example_answers)
    = Some (2, example_row "Hip Flexion" "Deep squat hold"
                 (Text "Goblet squat") (Text "Elevate the heels")) ∧
  Forall (λ line, ¬ accepted line) ["perhaps"; "yes"] ∧
  assessment_loop example_catalog example_relevant
      (typed_lines (take 2 example_answers) ++ ["perhaps"; "yes"])
    = Result
        (concat (zip_with shown (relevant_rows example_relevant example_catalog)
                                (take 2 example_answers))
         ++ presented (2, example_row "Hip Flexion" "Deep squat hold"
                            (Text "Goblet squat") (Text "Elevate the heels"))
         ++ reprompts ["perhaps"; "yes"] ++ [Prompt question])
        (Raise EOFError) [].
Proof.
  assert (H1 : Forall well_formed (take 2 example_answers)).
  { apply Forall_take, example_answers_well_formed. }
  assert (H2 : relevant_rows example_relevant example_catalog
                 !! length (take 2 example_answers)
               = Some (2, example_row "Hip Flexion" "Deep squat hold"
                            (Text "Goblet squat") (Text "Elevate the heels")))
    by (vm_compute; reflexivity).
  assert (H3 : Forall (λ line, ¬ accepted line) ["perhaps"; "yes"]).
  { unfold accepted. repeat (constructor; [solve_decidable|]). constructor. }
  split; [exact H1|]. split; [exact H2|]. split; [exact H3|].
  exact (assessment_loop_eof example_catalog example_relevant _ _ _ H1 H2 H3).
Defined.

(** [str.lower] turns the Kelvin sign into k, so the loop takes the word
    skip written with it as skip: no complaint, nothing recorded, and the
    next line left unread. *)
Example kelvin_skip_is_skip :
  lower kelvin_skip = "skip" ∧
  assessment_loop [example_row "Hip Flexion" "Knee to chest" NaN NaN] example_relevant
      [kelvin_skip; "y"]
    = Result (presented (0, example_row "Hip Flexion" "Knee to chest" NaN NaN)
              ++ [Prompt question])
             (Return []) ["y"].
Proof. split; vm_compute; reflexivity. Qed.

Lemma relevant_area_present (area : cell) (relevant_areas : gset string) :
  cell_in_set area relevant_areas = true → notna area = true.
Proof. by destruct area. Qed.

(** The rows the assessment loop reports as failed are catalog rows that
    have an area. *)
Lemma reported_failed_present (assessment_data : DataFrame)
    (relevant_areas : gset string) (answers : list answer) :
  ∃ failed_rows,
    rows_at assessment_data
      (reported_failed (zip (relevant_rows relevant_areas assessment_data) answers))
      failed_rows ∧
    areas_present failed_rows.
Proof.
  unfold reported_failed.
  set (turns := filter _ (zip (relevant_rows relevant_areas assessment_data) answers)).
  exists ((λ turn : nat * TestRow * answer, turn.1.2) <$> turns).
  assert (Hturns : Forall (λ turn : nat * TestRow * answer,
                     assessment_data !! turn.1.1 = Some turn.1.2 ∧
                     notna (Area turn.1.2) = true) turns).
  { apply Forall_forall. intros [[index row] a] Hturn. cbn.
    apply list_elem_of_filter in Hturn as [_ Hturn].
    apply elem_of_zip_l in Hturn. cbn in Hturn.
    apply list_elem_of_filter in Hturn as [Hrel Hentry]. cbn in Hrel.
    apply list_elem_of_lookup in Hentry as [k Hk].
    apply iterrows_lookup in Hk as [-> ?].
    split; [done|]. by eapply relevant_area_present. }
  split.
  - unfold rows_at. apply Forall2_fmap, Forall_Forall2_diag.
    eapply Forall_impl; [exact Hturns|]. by intros turn [? _].
  - unfold areas_present. apply Forall_fmap.
    eapply Forall_impl; [exact Hturns|]. by intros turn [_ ?].
Qed.

(** * Further properties: the plan generator *)

Lemma quiet_ret {A} (a : A) : quiet (mret a).
Proof. intros i. by split_and!. Qed.

Lemma quiet_raise {A} (e : exn) : quiet (@raise A e).
Proof. intros i. by split_and!. Qed.

Lemma quiet_print (s : string) : quiet (print s).
Proof. intros i. split_and!; [done..|]. by repeat constructor. Qed.

Lemma quiet_bind {A B} (m : io A) (f : A → io B) :
  quiet m → (∀ a, quiet (f a)) → quiet (m ≫= f).
Proof.
  intros Hm Hf i. rewrite !bind_result.
  destruct (Hm i) as (Hrest & Hout & Hres & Hprint). destruct (Hm []) as (Hrest0 & _).
  rewrite Hres, Hrest, Hrest0, Hout. destruct (res (m [])) as [a|e]; cbn [out res rest].
  - destruct (Hf a i) as (? & -> & ? & ?). split_and!; [done..|].
    apply Forall_app. split; [by rewrite <-Hout|]. by destruct (Hf a []) as (_ & _ & _ & ?).
  - split_and!; [done..|]. by rewrite <-Hout.
Qed.

Lemma quiet_for_fold {A S} (xs : list A) (body : S → A → io S) :
  (∀ s x, quiet (body s x)) → ∀ s, quiet (for_fold xs body s).
Proof.
  intros Hbody. induction xs as [|x xs IH]; intros s; cbn [for_fold].
  - apply quiet_ret.
  - by apply quiet_bind.
Qed.

Lemma quiet_for {A} (xs : list A) (body : A → io unit) :
  (∀ x, quiet (body x)) → quiet (for_ xs body).
Proof. intros Hbody. unfold for_. by apply quiet_for_fold. Qed.

Lemma quiet_iloc assessment_data idx : quiet (iloc assessment_data idx).
Proof. unfold iloc. destruct (assessment_data !! idx); [apply quiet_ret|apply quiet_raise]. Qed.

Lemma quiet_list_getitem {A} (xs : list A) k : quiet (list_getitem xs k).
Proof. unfold list_getitem. destruct (xs !! k); [apply quiet_ret|apply quiet_raise]. Qed.

Lemma quiet_getitem {V} (d : gmap string V) k : quiet (getitem d k).
Proof. unfold getitem. destruct (d !! k); [apply quiet_ret|apply quiet_raise]. Qed.

Lemma quiet_Solution_ j row : quiet (Solution_ j row).
Proof.
  unfold Solution_. destruct j as [|[|[|[|[|j]]]]]; first [apply quiet_ret|apply quiet_raise].
Qed.

Lemma quiet_generate_warmup_plan assessment_data failed_indices selected_lifts :
  quiet (generate_warmup_plan assessment_data failed_indices selected_lifts).
Proof.
  unfold generate_warmup_plan, group_failed, print_top_issues, print_exercises,
    print_progressions, print_implementation_notes, collect_tips.
  destruct (bool_decide (failed_indices = []));
    repeat first
      [ apply quiet_ret | apply quiet_print | apply quiet_iloc
      | apply quiet_list_getitem | apply quiet_getitem | apply quiet_Solution_
      | apply quiet_bind; [|intros ?]
      | apply quiet_for_fold; intros ? ?
      | apply quiet_for; intros ?
      | match goal with |- quiet (if ?b then _ else _) => destruct b end
      | match goal with |- quiet (let '(_, _) := ?p in _) => destruct p end ].
Qed.

(** X8. [generate_warmup_plan] leaves standard input alone, whatever its
    arguments and also when it raises: it reads nothing, writes no prompt,
    and its trace and outcome do not depend on what the input holds. *)
Theorem generate_warmup_plan_reads_nothing (assessment_data : DataFrame)
    (failed_indices : list nat) (selected_lifts : list string) (i : list string) :
  rest (generate_warmup_plan assessment_data failed_indices selected_lifts i) = i ∧
  out (generate_warmup_plan assessment_data failed_indices selected_lifts i)
    = out (generate_warmup_plan assessment_data failed_indices selected_lifts []) ∧
  res (generate_warmup_plan assessment_data failed_indices selected_lifts i)
    = res (generate_warmup_plan assessment_data failed_indices selected_lifts []) ∧
  Forall is_print (out (generate_warmup_plan assessment_data failed_indices selected_lifts i)).
Proof. apply quiet_generate_warmup_plan. Qed.

Lemma group_failed_raises assessment_data failed_indices idx :
  idx ∈ failed_indices → assessment_data !! idx = None →
  ∀ i, group_failed assessment_data failed_indices i = Result [] (Raise IndexError) i.
Proof.
  unfold group_failed. generalize (@nil (cell * nat)) as area_counts.
  intros area_counts Hin Hnone. revert area_counts.
  induction failed_indices as [|idx0 idxs IH]; intros area_counts i;
    [by apply elem_of_nil in Hin|].
  cbn [for_fold]. destruct (assessment_data !! idx0) as [row|] eqn:Hrow.
  - assert (Hbody : emits (row ← iloc assessment_data idx0;
                           mret (count_area (Area row) area_counts))
                          [] (count_area (Area row) area_counts)).
    { apply (emits_bind _ _ [] row [] _); [by apply iloc_emits|apply emits_ret]. }
    rewrite (bind_emits _ _ _ _ _ Hbody). cbn [out res rest app].
    apply elem_of_cons in Hin as [->|Hin]; [congruence|]. by rewrite IH.
  - rewrite !bind_result. unfold iloc. by rewrite Hrow.
Qed.

(** X9. A failure index beyond the catalog makes [generate_warmup_plan]
    raise [IndexError] in the grouping loop: the four heading lines of the
    customized plan are all it has printed, and no list, exercise or note
    follows. *)
Theorem generate_warmup_plan_index_error (assessment_data : DataFrame)
    (failed_indices : list nat) (selected_lifts : list string) (i : list string)
    (idx : nat) :
  idx ∈ failed_indices →
  length assessment_data ≤ idx →
  generate_warmup_plan assessment_data failed_indices selected_lifts i
    = Result customized_header (Raise IndexError) i.
Proof.
  intros Hin Hidx. unfold generate_warmup_plan.
  rewrite bool_decide_eq_false_2 by (intros ->; by apply elem_of_nil in Hin).
  do 4 (rewrite (bind_emits _ _ _ _ _ (emits_print _)); cbn [out res rest]).
  rewrite bind_result, (group_failed_raises _ _ idx Hin) by (by apply lookup_ge_None_2).
  done.
Qed.

Lemma generate_warmup_plan_index_error_witness :
  8 ∈ [1; 8; 2] ∧
  length example_catalog ≤ 8 ∧
  generate_warmup_plan example_catalog [1; 8; 2] ["squat"] ["unread"]
    = Result customized_header (Raise IndexError) ["unread"].
Proof.
  assert (H1 : 8 ∈ [1; 8; 2]) by solve_decidable.
  assert (H2 : length example_catalog ≤ 8) by (cbn; lia).
  split; [exact H1|]. split; [exact H2|].
  exact (generate_warmup_plan_index_error example_catalog [1; 8; 2] ["squat"]
           ["unread"] 8 H1 H2).
Defined.

Lemma count_area_total area (area_counts : list (cell * nat)) :
  sum_list (count_area area area_counts).*2 = S (sum_list area_counts.*2) ∧
  (Forall (λ entry, 1 ≤ entry.2) area_counts →
   Forall (λ entry, 1 ≤ entry.2) (count_area area area_counts)).
Proof.
  induction area_counts as [|[a n] area_counts [IHsum IHpos]]; cbn.
  - split; [done|]. intros _. by repeat constructor.
  - destruct (bool_decide (a = area)); cbn.
    + split; [lia|]. intros [? ?]%Forall_cons. constructor; [cbn; lia|done].
    + rewrite IHsum. split; [lia|]. intros [? ?]%Forall_cons. constructor; [done|auto].
Qed.

Lemma count_areas_total (areas : list cell) :
  sum_list (count_areas areas).*2 = length areas ∧
  Forall (λ entry, 1 ≤ entry.2) (count_areas areas).
Proof.
  induction areas as [|a areas [IHsum IHpos]] using rev_ind; [by split|].
  unfold count_areas. rewrite foldl_snoc. fold (count_areas areas).
  destruct (count_area_total a (count_areas areas)) as [-> Hpos].
  rewrite length_app, IHsum. cbn. split; [lia|auto].
Qed.

(** X10. The grouping loses no failure: for failed rows that are in the
    catalog the grouping loop returns a table whose counts, also after
    sorting, add up to the number of failures; every listed area has at
    least one failure, and there are no more areas than failures. *)
Theorem grouped_counts_total (assessment_data : DataFrame) (failed_indices : list nat)
    (failed_rows : list TestRow) (i : list string) :
  rows_at assessment_data failed_indices failed_rows →
  ∃ area_counts,
    group_failed assessment_data failed_indices i = Result [] (Return area_counts) i ∧
    sum_list (sorted_desc area_counts).*2 = length failed_indices ∧
    Forall (λ entry, 1 ≤ entry.2) (sorted_desc area_counts) ∧
    length (sorted_desc area_counts) ≤ length failed_indices.
Proof.
  intros Hrows. exists (count_areas (Area <$> failed_rows)).
  pose proof (Forall2_length _ _ _ Hrows) as Hlen.
  destruct (count_areas_total (Area <$> failed_rows)) as [Hsum Hpos].
  rewrite length_fmap in Hsum.
  assert (Hsum' : sum_list (sorted_desc (count_areas (Area <$> failed_rows))).*2
                  = length failed_indices).
  { by rewrite sorted_desc_Permutation, Hsum. }
  assert (Hpos' : Forall (λ entry, 1 ≤ entry.2)
                    (sorted_desc (count_areas (Area <$> failed_rows)))).
  { by rewrite sorted_desc_Permutation. }
  split_and!; [by apply group_failed_emits|done|done|].
  rewrite <-Hsum'. clear Hsum'.
  induction Hpos' as [|[a n] l Hn _ IH]; [done|]. cbn in *. lia.
Qed.

Lemma grouped_counts_total_witness :
  rows_at example_catalog [0; 1; 2; 7] (rows_of example_catalog [0; 1; 2; 7]) ∧
  ∃ area_counts,
    group_failed example_catalog [0; 1; 2; 7] []
      = Result [] (Return area_counts) [] ∧
    sum_list (sorted_desc area_counts).*2 = length [0; 1; 2; 7] ∧
    Forall (λ entry, 1 ≤ entry.2) (sorted_desc area_counts) ∧
    length (sorted_desc area_counts) ≤ length [0; 1; 2; 7].
Proof.
  assert (H : rows_at example_catalog [0; 1; 2; 7] (rows_of example_catalog [0; 1; 2; 7]))
    by solve_rows_at.
  split; [exact H|].
  exact (grouped_counts_total example_catalog [0; 1; 2; 7] _ [] H).
Defined.

(** * Further properties: a whole run *)

Lemma all_passed_emits (assessment_data : DataFrame) (selected_lifts : list string) :
  emits (generate_warmup_plan assessment_data [] selected_lifts)
        (all_passed_template selected_lifts) ().
Proof.
  unfold generate_warmup_plan, all_passed_template. simpl bool_decide. cbv iota.
  do 3 apply emits_print_then.
  apply emits_for. intros lift _. unfold standard_progression.
  do 5 apply emits_print_then. apply emits_print.
Qed.

Lemma rows_of_in_catalog (assessment_data : DataFrame) (failed_indices : list nat) :
  Forall (λ idx, is_Some (assessment_data !! idx)) failed_indices →
  rows_at assessment_data failed_indices (rows_of assessment_data failed_indices).
Proof.
  unfold rows_at, rows_of. induction 1 as [|idx idxs [row Hrow] _ IH]; [constructor|].
  cbn [omap list_omap]. rewrite Hrow. by constructor.
Qed.

Lemma chosen_lifts_valid (squat bench deadlift : string) :
  chosen_lifts squat bench deadlift ⊆ ["squat"; "bench"; "deadlift"] ∧
  NoDup (chosen_lifts squat bench deadlift).
Proof.
  pose proof (chosen_lifts_selection squat bench deadlift) as Hsub. split.
  - by apply sublist_subseteq.
  - eapply sublist_NoDup; [|exact Hsub]. solve_decidable.
Qed.

Lemma chosen_lifts_relevant (squat bench deadlift : string) :
  ∃ relevant_areas,
    get_relevant_tests (chosen_lifts squat bench deadlift) = Return relevant_areas.
Proof.
  destruct (get_relevant_tests_loop_spec (chosen_lifts squat bench deadlift)
              (list_to_set FUNDAMENTAL_TESTS)) as (R & HR & _).
  { apply valid_selection, chosen_lifts_valid. }
  by exists R.
Qed.

(** The plan for failures that are in the catalog and lifts as
    [select_lifts] returns them. *)
Lemma plan_for_emits (assessment_data : DataFrame) (failed_indices : list nat)
    (selected_lifts : list string) :
  Forall (λ idx, is_Some (assessment_data !! idx)) failed_indices →
  selected_lifts ⊆ ["squat"; "bench"; "deadlift"] →
  NoDup selected_lifts →
  emits (generate_warmup_plan assessment_data failed_indices selected_lifts)
        (plan_for assessment_data failed_indices selected_lifts) ().
Proof.
  intros Hin Hvalid Hnodup.
  destruct (decide (failed_indices = [])) as [->|Hne]; [apply all_passed_emits|].
  assert (Hplan : plan_for assessment_data failed_indices selected_lifts
                  = customized_plan (rows_of assessment_data failed_indices) selected_lifts)
    by (by destruct failed_indices).
  rewrite Hplan. intros i.
  apply generate_warmup_plan_customized_full; [done| |done|done].
  by apply rows_of_in_catalog.
Qed.

(** A run on a loaded catalog, past the selection. *)
Lemma run_assessment_loaded (assessment_data : DataFrame)
    (squat bench deadlift : string) (i : list string) (relevant_areas : gset string) :
  let selected_lifts := chosen_lifts squat bench deadlift in
  get_relevant_tests selected_lifts = Return relevant_areas →
  run_assessment (Loaded assessment_data) (squat :: bench :: deadlift :: i)
    = let loop := assessment_loop assessment_data relevant_areas i in
      let before := selection_header ++ selection_prompts
                    ++ assessment_header selected_lifts relevant_areas ++ out loop in
      match res loop with
      | Return failed_tests =>
          let plan :=
            generate_warmup_plan assessment_data failed_tests selected_lifts (rest loop) in
          Result (before ++ out plan) (res plan) (rest plan)
      | Raise e => Result before (Raise e) (rest loop)
      end.
Proof.
  intros lifts Hrelevant. unfold run_assessment, load_assessment_data.
  rewrite (bind_emits _ _ _ _ _ (emits_ret _)). cbn [out res rest app].
  rewrite (bind_run _ _ _ _ _ _ (select_lifts_run squat bench deadlift i)).
  cbn [out res rest]. fold lifts.
  rewrite (bind_emits _ _ _ _ _ (emits_print _)); cbn [out res rest].
  rewrite Hrelevant.
  assert (Hcall : emits (call (Return relevant_areas)) [] relevant_areas) by done.
  rewrite (bind_emits _ _ _ _ _ Hcall); cbn [out res rest].
  do 3 (rewrite (bind_emits _ _ _ _ _ (emits_print _)); cbn [out res rest]).
  rewrite bind_result. cbn zeta. unfold assessment_header.
  destruct (res (assessment_loop assessment_data relevant_areas i)) as [failed|e];
    cbn [app]; rewrite <-?app_assoc; cbn [app]; reflexivity.
Qed.

(** X11. A whole run. On a loaded catalog, given the three lines of the
    selection and then, for every relevant row, lines that are not accepted
    followed by one that is, the run returns normally and has read exactly
    these lines. Its trace is the selection, the heading of the assessment
    with the number of relevant areas, the dialogue about the relevant rows
    in catalog order, and the plan for the rows answered y: the all-passed
    template if there are none, else the customized plan. *)
Theorem run_assessment_complete (assessment_data : DataFrame)
    (squat bench deadlift : string) (relevant_areas : gset string)
    (answers : list answer) (more : list string) :
  let selected_lifts := chosen_lifts squat bench deadlift in
  let shown_rows := relevant_rows relevant_areas assessment_data in
  get_relevant_tests selected_lifts = Return relevant_areas →
  length answers = length shown_rows →
  Forall well_formed answers →
  run_assessment (Loaded assessment_data)
      (squat :: bench :: deadlift :: typed_lines answers ++ more)
    = Result
        (selection_header ++ selection_prompts
         ++ assessment_header selected_lifts relevant_areas
         ++ concat (zip_with shown shown_rows answers)
         ++ plan_for assessment_data (reported_failed (zip shown_rows answers))
                     selected_lifts)
        (Return ()) more.
Proof.
  intros lifts shown_rows Hrelevant Hlen Hwf.
  rewrite (run_assessment_loaded _ _ _ _ _ _ Hrelevant). cbn zeta. unfold assessment_loop.
  rewrite (assess_rows_spec relevant_areas (iterrows assessment_data) [] answers more
             Hlen Hwf).
  cbn [out res rest app]. fold (relevant_rows relevant_areas assessment_data).
  fold shown_rows.
  destruct (chosen_lifts_valid squat bench deadlift) as [Hvalid Hnodup].
  destruct (reported_failed_in_catalog assessment_data relevant_areas answers)
    as [rows Hrows].
  rewrite (plan_for_emits assessment_data (reported_failed (zip shown_rows answers))
             lifts) by first [done | eapply Forall2_Forall_l; [exact Hrows|];
                                     apply Forall_forall; by eauto].
  by rewrite <-!app_assoc.
Qed.

Lemma run_assessment_complete_witness :
  let relevant_areas : gset string :=
    list_to_set (FUNDAMENTAL_TESTS ++ default [] (LIFT_SPECIFIC_TESTS !! "squat")) in
  let selected_lifts := chosen_lifts "Y" "no" "n" in
  let shown_rows := relevant_rows relevant_areas example_catalog in
  get_relevant_tests selected_lifts = Return relevant_areas ∧
  length example_answers = length shown_rows ∧
  Forall well_formed example_answers ∧
  run_assessment (Loaded example_catalog)
      ("Y" :: "no" :: "n" :: typed_lines example_answers ++ ["unread"])
    = Result
        (selection_header ++ selection_prompts
         ++ assessment_header selected_lifts relevant_areas
         ++ concat (zip_with shown shown_rows example_answers)
         ++ plan_for example_catalog (reported_failed (zip shown_rows example_answers))
                     selected_lifts)
        (Return ()) ["unread"].
Proof.
  intros areas lifts shown_rows.
  assert (H1 : get_relevant_tests lifts = Return areas) by (vm_compute; reflexivity).
  assert (H2 : length example_answers = length shown_rows) by (vm_compute; reflexivity).
  split; [exact H1|]. split; [exact H2|]. split; [exact example_answers_well_formed|].
  exact (run_assessment_complete example_catalog "Y" "no" "n" areas example_answers
           ["unread"] H1 H2 example_answers_well_formed).
Defined.

(** X12. When the file fails to load, or loads as the catalog that
    [Loaded] stands for (the eight columns, the default index), the run
    never ends in [KeyError] or [IndexError]: whatever the input, it
    returns normally or runs out of input. The lifts it looks up are keys of
    the table and the rows it fetches are in the catalog. *)
Theorem run_assessment_returns_or_eof (csv : csv_file) (i : list string) :
  res (run_assessment csv i) = Return () ∨ res (run_assessment csv i) = Raise EOFError.
Proof.
  destruct csv as [assessment_data|e]; [|by left].
  destruct i as [|squat [|bench [|deadlift i]]]; [by right..|].
  destruct (chosen_lifts_relevant squat bench deadlift) as [relevant_areas Hrelevant].
  rewrite (run_assessment_loaded _ _ _ _ _ _ Hrelevant). cbn zeta.
  unfold assessment_loop.
  destruct (assess_rows_outcome relevant_areas (iterrows assessment_data) [] i)
    as [->|(failed & -> & Hsub)]; [by right|].
  left. cbn [app res]. destruct (chosen_lifts_valid squat bench deadlift) as [Hvalid Hnodup].
  rewrite (plan_for_emits assessment_data failed _); [done| |done|done].
  apply Forall_forall. intros idx Hidx.
  destruct (relevant_rows_in_catalog relevant_areas assessment_data idx) as (row & Hrow & _).
  { by eapply elem_of_sublist. }
  by eexists.
Qed.

(** * Further properties: lift names and the implementation notes *)

Lemma bind_assoc {A B C} (m : io A) (f : A → io B) (g : B → io C) (i : list string) :
  ((m ≫= f) ≫= g) i = (m ≫= λ a, f a ≫= g) i.
Proof.
  unfold mbind, io_mbind, io_bind. destruct (m i) as [o [a|e] r]; cbn [out res rest]; [|done].
  destruct (f a r) as [o' [b|e'] r']; cbn [out res rest]; [|done].
  by rewrite app_assoc.
Qed.

Lemma bind_ext {A B} (m : io A) (f g : A → io B) (i : list string) :
  (∀ a j, f a j = g a j) → (m ≫= f) i = (m ≫= g) i.
Proof. intros Hfg. unfold mbind, io_mbind, io_bind. destruct (res (m i)); by rewrite ?Hfg. Qed.

Lemma for_fold_app {A S} (xs ys : list A) (body : S → A → io S) (s : S) (i : list string) :
  for_fold (xs ++ ys) body s i = (s' ← for_fold xs body s; for_fold ys body s') i.
Proof.
  revert s i. induction xs as [|x xs IH]; intros s i; cbn [app for_fold].
  - rewrite (bind_emits _ _ _ _ _ (emits_ret s)). by destruct (for_fold ys body s i).
  - rewrite bind_assoc. apply bind_ext. intros s' j. apply IH.
Qed.

Lemma bind_ext_l {A B} (m m' : io A) (f : A → io B) (i : list string) :
  (∀ j, m j = m' j) → (m ≫= f) i = (m' ≫= f) i.
Proof. intros Hm. unfold mbind, io_mbind, io_bind. by rewrite Hm. Qed.

Lemma bind_silent {A B} (m : io A) (f : A → io B) a (i : list string) :
  emits m [] a → (m ≫= f) i = f a i.
Proof.
  intros Hm. rewrite (bind_emits _ _ _ _ _ Hm). cbn [app]. by destruct (f a i).
Qed.

Lemma collect_tips_cons assessment_data idx idxs selected_lifts
    (lift_specific_tips : gmap string (list string)) row (i : list string) :
  assessment_data !! idx = Some row →
  collect_tips assessment_data (idx :: idxs) selected_lifts lift_specific_tips i
    = (tips ← (if notna (Solution_4 row)
               then for_fold selected_lifts (attribute_tip row) lift_specific_tips
               else mret lift_specific_tips);
       collect_tips assessment_data idxs selected_lifts tips) i.
Proof.
  intros Hrow. unfold collect_tips. cbn [for_fold].
  apply bind_ext_l. intros j.
  by rewrite (bind_silent _ _ row j (iloc_emits _ _ _ Hrow)).
Qed.

Lemma initial_tips_any (selected_lifts : list string) lift :
  lift ∈ selected_lifts →
  (list_to_map ((λ lift, (lift, [])) <$> selected_lifts) : gmap string (list string)) !! lift
    = Some [].
Proof.
  induction selected_lifts as [|l lifts IH]; [by intros ?%elem_of_nil|].
  intros Hin. cbn [fmap list_fmap list_to_map foldr]. cbn.
  destruct (decide (l = lift)) as [->|Hne]; [by rewrite lookup_insert_eq|].
  rewrite lookup_insert_ne by done. apply IH.
  by apply elem_of_cons in Hin as [?|?].
Qed.

Lemma collect_tips_untouched assessment_data failed_indices failed_rows selected_lifts :
  rows_at assessment_data failed_indices failed_rows →
  Forall (λ row, Solution_4 row = NaN) failed_rows →
  ∀ lift_specific_tips,
    emits (collect_tips assessment_data failed_indices selected_lifts lift_specific_tips)
          [] lift_specific_tips.
Proof.
  induction 1 as [|idx row idxs rows Hrow _ IH]; intros Hnone m i; [done|].
  apply Forall_cons in Hnone as [Hs4 Hnone].
  rewrite (collect_tips_cons _ _ _ _ _ _ _ Hrow), Hs4. cbn [notna].
  rewrite (bind_emits _ _ _ _ _ (emits_ret m)). cbn [app].
  by rewrite (IH Hnone m i).
Qed.

(** X13. When no failed row has a fourth solution (and each has an area)
    the notes look up no lift: whatever names the selection holds, keys of the table or not,
    repeated or not, the customized plan is printed through and ends with
    the two heading lines of the notes. *)
Theorem plan_without_fourth_solutions (assessment_data : DataFrame)
    (failed_indices : list nat) (failed_rows : list TestRow)
    (selected_lifts : list string) (i : list string) :
  failed_indices ≠ [] →
  rows_at assessment_data failed_indices failed_rows →
  areas_present failed_rows →
  Forall (λ row, Solution_4 row = NaN) failed_rows →
  generate_warmup_plan assessment_data failed_indices selected_lifts i
    = Result (customized_plan_head failed_rows selected_lifts) (Return ()) i.
Proof.
  intros Hne Hrows _ Hnone.
  rewrite (generate_warmup_plan_customized _ _ _ _ _ Hne Hrows). cbn zeta.
  assert (Hnotes : emits (print_implementation_notes assessment_data failed_indices
                            selected_lifts) (notes_heading selected_lifts) ()).
  { unfold print_implementation_notes, notes_heading.
    do 2 apply emits_print_then. cbn zeta.
    apply (emits_bind _ _ [] _ [] () (collect_tips_untouched _ _ _ _ Hrows Hnone _)).
    assert (Hnil : concat ((λ _ : string, @nil event) <$> selected_lifts) = []).
    { induction selected_lifts as [|l lifts IH]; [done|]. by cbn. }
    rewrite <-Hnil. apply emits_for. intros lift Hlift.
    apply (emits_bind _ _ [] [] [] () (getitem_emits _ _ _ (initial_tips_any _ _ Hlift))).
    apply emits_ret. }
  by rewrite Hnotes.
Qed.

Lemma plan_without_fourth_solutions_witness :
  [1; 5] ≠ [] ∧
  rows_at example_catalog [1; 5] (rows_of example_catalog [1; 5]) ∧
  areas_present (rows_of example_catalog [1; 5]) ∧
  Forall (λ row, Solution_4 row = NaN) (rows_of example_catalog [1; 5]) ∧
  generate_warmup_plan example_catalog [1; 5] ["press"; "squat"; "press"] []
    = Result (customized_plan_head (rows_of example_catalog [1; 5])
                                   ["press"; "squat"; "press"])
             (Return ()) [].
Proof.
  assert (H1 : [1; 5] ≠ @nil nat) by discriminate.
  assert (H2 : rows_at example_catalog [1; 5] (rows_of example_catalog [1; 5]))
    by solve_rows_at.
  assert (H3 : Forall (λ row, Solution_4 row = NaN) (rows_of example_catalog [1; 5]))
    by (repeat constructor).
  assert (Hpresent : areas_present (rows_of example_catalog [1; 5])) by (repeat constructor).
  split; [exact H1|]. split; [exact H2|]. split; [exact Hpresent|]. split; [exact H3|].
  exact (plan_without_fourth_solutions example_catalog [1; 5] _
           ["press"; "squat"; "press"] [] H1 H2 Hpresent H3).
Defined.

Lemma attribute_tip_unknown (row : TestRow) (known : list string) (lift : string)
    (others : list string) (lift_specific_tips : gmap string (list string))
    (i : list string) :
  known ⊆ ["squat"; "bench"; "deadlift"] → NoDup known →
  LIFT_SPECIFIC_TESTS !! lift = None →
  tips_keyed known lift_specific_tips →
  for_fold (known ++ lift :: others) (attribute_tip row) lift_specific_tips i
    = Result [] (Raise (KeyError lift)) i.
Proof.
  intros Hvalid Hnodup Hlift Hkeyed. rewrite for_fold_app.
  destruct (attribute_tip_emits known Hvalid row known Hnodup (λ x Hx, Hx)
              lift_specific_tips Hkeyed) as (tips' & Hemits & _).
  change (emits (for_fold known (attribute_tip row) lift_specific_tips) [] tips') in Hemits.
  rewrite (bind_silent _ _ tips' i Hemits). cbn [for_fold].
  assert (Hraise : attribute_tip row tips' lift i = Result [] (Raise (KeyError lift)) i).
  { unfold attribute_tip, getitem. by rewrite Hlift. }
  by rewrite bind_result, Hraise.
Qed.

Lemma collect_tips_unknown assessment_data failed_indices failed_rows
    (known : list string) (lift : string) (others : list string) :
  known ⊆ ["squat"; "bench"; "deadlift"] → NoDup known →
  LIFT_SPECIFIC_TESTS !! lift = None →
  rows_at assessment_data failed_indices failed_rows →
  Exists (λ row, notna (Solution_4 row) = true) failed_rows →
  ∀ lift_specific_tips (i : list string),
    tips_keyed known lift_specific_tips →
    collect_tips assessment_data failed_indices (known ++ lift :: others)
        lift_specific_tips i
      = Result [] (Raise (KeyError lift)) i.
Proof.
  intros Hvalid Hnodup Hlift.
  induction 1 as [|idx row idxs rows Hrow _ IH]; intros Hexists m i Hkeyed;
    [by apply Exists_nil in Hexists|].
  rewrite (collect_tips_cons _ _ _ _ _ _ _ Hrow).
  destruct (notna (Solution_4 row)) eqn:Hnotna.
  - rewrite bind_result. by rewrite attribute_tip_unknown.
  - rewrite (bind_emits _ _ _ _ _ (emits_ret m)). cbn [app].
    apply Exists_cons in Hexists as [Hhead|Htail]; [congruence|].
    by rewrite (IH Htail m i Hkeyed).
Qed.

(** X14. A name in the selection that is not a key of
    [LIFT_SPECIFIC_TESTS] makes the customized plan raise [KeyError] for
    that name as soon as a failed row has a fourth solution (the failed
    rows being rows with an area): the plan is
    printed up to the two heading lines of the notes, with a progression
    for the unknown name too, and no tip follows. *)
Theorem plan_unknown_lift (assessment_data : DataFrame) (failed_indices : list nat)
    (failed_rows : list TestRow) (known : list string) (lift : string)
    (others : list string) (i : list string) :
  failed_indices ≠ [] →
  rows_at assessment_data failed_indices failed_rows →
  areas_present failed_rows →
  known ⊆ ["squat"; "bench"; "deadlift"] →
  NoDup known →
  lift ∉ ["squat"; "bench"; "deadlift"] →
  Exists (λ row, notna (Solution_4 row) = true) failed_rows →
  generate_warmup_plan assessment_data failed_indices (known ++ lift :: others) i
    = Result (customized_plan_head failed_rows (known ++ lift :: others))
             (Raise (KeyError lift)) i.
Proof.
  intros Hne Hrows _ Hvalid Hnodup Hlift Hexists.
  assert (Hnone : LIFT_SPECIFIC_TESTS !! lift = None).
  { apply eq_None_not_Some. by rewrite <-lift_is_key. }
  rewrite (generate_warmup_plan_customized _ _ _ _ _ Hne Hrows). cbn zeta.
  unfold print_implementation_notes.
  do 2 (rewrite (bind_emits _ _ _ _ _ (emits_print _)); cbn [out res rest]).
  rewrite bind_result.
  rewrite (collect_tips_unknown _ _ _ _ _ _ Hvalid Hnodup Hnone Hrows Hexists).
  - done.
  - intros l Hl. rewrite initial_tips_any; [by eexists|].
    apply elem_of_app. by left.
Qed.

Lemma plan_unknown_lift_witness :
  [1; 0] ≠ [] ∧
  rows_at example_catalog [1; 0] (rows_of example_catalog [1; 0]) ∧
  areas_present (rows_of example_catalog [1; 0]) ∧
  ["bench"] ⊆ ["squat"; "bench"; "deadlift"] ∧
  NoDup ["bench"] ∧
  ("press" ∉ ["squat"; "bench"; "deadlift"]) ∧
  Exists (λ row, notna (Solution_4 row) = true) (rows_of example_catalog [1; 0]) ∧
  generate_warmup_plan example_catalog [1; 0] (["bench"] ++ "press" :: ["squat"]) []
    = Result (customized_plan_head (rows_of example_catalog [1; 0])
                (["bench"] ++ "press" :: ["squat"]))
             (Raise (KeyError "press")) [].
Proof.
  assert (H1 : [1; 0] ≠ @nil nat) by discriminate.
  assert (H2 : rows_at example_catalog [1; 0] (rows_of example_catalog [1; 0]))
    by solve_rows_at.
  assert (H3 : ["bench"] ⊆ ["squat"; "bench"; "deadlift"]) by solve_selection.
  assert (H4 : NoDup ["bench"]) by solve_decidable.
  assert (H5 : "press" ∉ ["squat"; "bench"; "deadlift"]) by solve_decidable.
  assert (H6 : Exists (λ row, notna (Solution_4 row) = true)
                 (rows_of example_catalog [1; 0])).
  { apply Exists_cons_tl, Exists_cons_hd. reflexivity. }
  assert (Hpresent : areas_present (rows_of example_catalog [1; 0])) by (repeat constructor).
  split; [exact H1|]. split; [exact H2|]. split; [exact Hpresent|]. split; [exact H3|]. split; [exact H4|].
  split; [exact H5|]. split; [exact H6|].
  exact (plan_unknown_lift example_catalog [1; 0] _ ["bench"] "press" ["squat"] []
           H1 H2 Hpresent H3 H4 H5 H6).
Defined.
